(** * Recognition workflow use-cases (app/usecase.py)

    A shallow embedding of the use-case classes of [app/usecase.py]
    together with the properties of the workflow state machine that the
    specification states about them.

    Python values are embedded as the JSON-like type [pyval]; a use-case
    is a computation in a state-and-exception monad over a [world] made
    of the blob table and the chronological trace of collaborator
    calls. *)

From Stdlib Require Import ZArith QArith String List Bool Lia.
From stdpp Require Import gmap strings list fin_maps.
Import ListNotations.

Local Open Scope string_scope.
Local Open Scope list_scope.
Local Open Scope Z_scope.
Set Warnings "-register-all".

(** ** Python values *)

(** The values that travel through the use-cases are the ones JSON can
    carry: step-function events, DynamoDB items, Rekognition responses.
    A dict keeps its entries in insertion order; keys are strings. *)
Inductive pyval : Type :=
| PNone
| PBool (b : bool)
| PInt (n : Z)
| PFloat (q : Q)
| PStr (s : string)
| PList (items : list pyval)
| PDict (entries : list (string * pyval)).

Abbreviation pydict := (list (string * pyval)).

(** [d[k]] when present. *)
Fixpoint dict_lookup (k : string) (d : pydict) : option pyval :=
  match d with
  | [] => None
  | (k', v) :: d' => if String.eqb k' k then Some v else dict_lookup k d'
  end.

(** [d.get(k, dflt)] *)
Definition dict_get (d : pydict) (k : string) (dflt : pyval) : pyval :=
  match dict_lookup k d with
  | Some v => v
  | None => dflt
  end.

(** [d[k] = v]: an existing key keeps its position. *)
Fixpoint dict_set (k : string) (v : pyval) (d : pydict) : pydict :=
  match d with
  | [] => [(k, v)]
  | (k', v') :: d' =>
      if String.eqb k' k then (k, v) :: d' else (k', v') :: dict_set k v d'
  end.

(** The one-character strings a [str] yields when iterated. *)
Fixpoint str_chars (s : string) : list pyval :=
  match s with
  | EmptyString => []
  | String c s' => PStr (String c EmptyString) :: str_chars s'
  end.

(** [v == s] for a [str] constant [s]: a value of another type is never
    equal to a string. *)
Definition py_eq_str (v : pyval) (s : string) : bool :=
  match v with
  | PStr s' => String.eqb s' s
  | _ => false
  end.

(** ** Exceptions *)

(** Built-in and library exception classes the code can meet. *)
Inductive builtin_error : Type :=
| AttributeError
| TypeError.

(** Modelled from the spec: exception.py defines only
    [RecognitionBaseException] and [CallbackUrlIsNotValid]; the other
    subclasses are not among the sources and are taken from the names
    usecase.py imports, which are the error kinds of the
    specification. *)
Inductive recognition_error : Type :=
| CallbackUrlIsNotValid
| BlobWasNotFound
| BlobIsNotUploadedYet
| BlobUploadTimedOut
| BlobRecognitionIsInProgress
| InvalidBlobHasBeenUploaded
| TooLargeBlobHasBeenUploaded
| RecognitionStepHasBeenFailed
| UnexpectedErrorOccurred.

(** [External] is an exception of a class the code does not name,
    raised by a library it calls: for instance
    [requests.exceptions.ReadTimeout]. *)
Inductive exn : Type :=
| Builtin (cls : builtin_error)
| Recognition (cls : recognition_error) (message : string) (payload : pydict)
| External (class_name : string) (message : string).

(** exception.py, [RecognitionBaseException.__init__]: a missing payload
    becomes the empty dict. *)
Definition RecognitionBaseException
    (cls : recognition_error) (message : string) (payload : option pydict) : exn :=
  Recognition cls message
    (match payload with
     | None => []
     | Some p => p
     end).

(** [str(e)] *)
Definition exn_str (e : exn) : string :=
  match e with
  | Builtin _ => ""
  | Recognition _ message _ => message
  | External _ message => message
  end.

Inductive res (A : Type) : Type :=
| Ok (a : A)
| Raise (e : exn).
Arguments Ok {A} a.
Arguments Raise {A} e.

(** ** Attribute access and iteration on values *)

(** [v.get(k, dflt)]: only a dict has a [get] method. *)
Definition py_get (v : pyval) (k : string) (dflt : pyval) : res pyval :=
  match v with
  | PDict d => Ok (dict_get d k dflt)
  | _ => Raise (Builtin AttributeError)
  end.

(** [for x in v]: a list yields its items, a dict its keys, a str its
    characters; the other values are not iterable. *)
Definition py_iter (v : pyval) : res (list pyval) :=
  match v with
  | PList items => Ok items
  | PDict entries => Ok (map (fun kv => PStr (fst kv)) entries)
  | PStr s => Ok (str_chars s)
  | _ => Raise (Builtin TypeError)
  end.

(** A comprehension [[f x for x in xs]]: the first exception raised by
    [f] ends the evaluation. *)
Fixpoint comprehension {A B : Type} (f : A -> res B) (xs : list A) : res (list B) :=
  match xs with
  | [] => Ok []
  | x :: xs' =>
      match f x with
      | Raise e => Raise e
      | Ok y =>
          match comprehension f xs' with
          | Raise e => Raise e
          | Ok ys => Ok (y :: ys)
          end
      end
  end.

(** ** Recognition statuses *)

(** Modelled from the spec: domain.py, which declares the enum
    [RecognitionStatus], is not among the sources.  Its members are the
    names usecase.py refers to, which are the states of the state
    machine plus [NOT_FOUND]. *)
Inductive RecognitionStatus : Type :=
| WAITING_FOR_UPLOAD
| UPLOAD_TIMED_OUT
| IN_PROGRESS
| INVALID_BLOB_HAS_BEEN_UPLOADED
| TOO_LARGE_BLOB_HAS_BEEN_UPLOADED
| UNEXPECTED_ERROR
| SUCCESS
| FAILED_DUE_TO_CALLBACK_FAILURE
| FAILED_DUE_TO_CALLBACK_TIME_OUT
| FAILED_DUE_TO_CALLBACK_CONNECTION
| NOT_FOUND.

(** Modelled from the spec: the [.value] of a member.  The values
    themselves are not visible in the sources; each member is given its
    own name, so that distinct members have distinct values, which is
    all the use-cases rely on. *)
Definition status_name (s : RecognitionStatus) : string :=
  match s with
  | WAITING_FOR_UPLOAD => "WAITING_FOR_UPLOAD"
  | UPLOAD_TIMED_OUT => "UPLOAD_TIMED_OUT"
  | IN_PROGRESS => "IN_PROGRESS"
  | INVALID_BLOB_HAS_BEEN_UPLOADED => "INVALID_BLOB_HAS_BEEN_UPLOADED"
  | TOO_LARGE_BLOB_HAS_BEEN_UPLOADED => "TOO_LARGE_BLOB_HAS_BEEN_UPLOADED"
  | UNEXPECTED_ERROR => "UNEXPECTED_ERROR"
  | SUCCESS => "SUCCESS"
  | FAILED_DUE_TO_CALLBACK_FAILURE => "FAILED_DUE_TO_CALLBACK_FAILURE"
  | FAILED_DUE_TO_CALLBACK_TIME_OUT => "FAILED_DUE_TO_CALLBACK_TIME_OUT"
  | FAILED_DUE_TO_CALLBACK_CONNECTION => "FAILED_DUE_TO_CALLBACK_CONNECTION"
  | NOT_FOUND => "NOT_FOUND"
  end.

Definition value (s : RecognitionStatus) : pyval := PStr (status_name s).

(** [v == RecognitionStatus.<s>.value] *)
Definition is_status (v : pyval) (s : RecognitionStatus) : bool :=
  py_eq_str v (status_name s).

(** ** The world: blob table and trace of collaborator calls *)

(** Every call a use-case makes on an injected collaborator, in the
    order the calls are made. *)
Inductive event : Type :=
| DbCreate (blob_id callback_url : string) (status : pyval)
| DbGetBlob (blob_id : string)
| DbUpdateStatus (blob_id : string) (status : pyval)
| DbSaveLabels (blob_id : string) (labels : pyval)
| S3IsUploaded (blob_id : string)
| S3GeneratePresignedUrl (blob_id : string)
| UploadingStepFunctionLaunch (blob_id : string)
| RecognitionStepFunctionLaunch (blob_id : string)
| RekognitionDetectLabels (blob_id : string)
| HttpInvoke (url data : pyval).

(** The DynamoDB table maps a blob id to its item, a dict. *)
Record world : Type := World {
  table : gmap string pydict;
  trace : list event
}.

Definition log (e : event) (w : world) : world :=
  World (table w) (trace w ++ [e]).

Definition with_table (f : gmap string pydict -> gmap string pydict) (w : world) : world :=
  World (f (table w)) (trace w).

(** ** The monad of use-cases: state and exceptions

    A raised exception keeps the writes made before it, as in Python. *)
Definition M (A : Type) : Type := world -> res A * world.

Definition ret {A : Type} (a : A) : M A := fun w => (Ok a, w).

Definition raise {A : Type} (e : exn) : M A := fun w => (Raise e, w).

Definition bind {A B : Type} (m : M A) (k : A -> M B) : M B :=
  fun w =>
    match m w with
    | (Ok a, w') => k a w'
    | (Raise e, w') => (Raise e, w')
    end.

(** A pure computation that may raise. *)
Definition lift {A : Type} (r : res A) : M A := fun w => (r, w).

(** [try: m except <classes>: ...]: [handler] answers [None] for an
    exception no [except] clause matches, which then propagates. *)
Definition try_except {A : Type} (m : M A) (handler : exn -> option (M A)) : M A :=
  fun w =>
    match m w with
    | (Ok a, w') => (Ok a, w')
    | (Raise e, w') =>
        match handler e with
        | Some h => h w'
        | None => (Raise e, w')
        end
    end.

Declare Scope usecase_scope.
Delimit Scope usecase_scope with usecase.
Notation "'let*' x ':=' m 'in' k" := (bind m (fun x => k))
  (at level 10, x name, m at level 100, k at level 200) : usecase_scope.
Notation "'do' m 'then' k" := (bind m (fun _ => k))
  (at level 10, m at level 100, k at level 200) : usecase_scope.
Local Open Scope usecase_scope.

(** ** Collaborators *)

(** Modelled from the spec: the Recognition Capability [detect(id)]
    returns the raw payload or fails with one of its two classified
    errors; the exception object carries the message. *)
Inductive detect_outcome : Type :=
| Detected (raw_labels_data : pyval)
| RaisedInvalidBlobHasBeenUploaded (message : string)
| RaisedTooLargeBlobHasBeenUploaded (message : string).

(** What the callable [http_invoke] of [Invoker] does: it returns a
    response, or raises.  [Invoker.invoke] tells three kinds of
    exception apart: [requests.exceptions.ConnectTimeout], any other
    [requests.exceptions.ConnectionError], and every other exception
    (a [ReadTimeout] of the [timeout] it passes, an invalid url, ...),
    which no [except] clause matches. *)
Inductive http_outcome : Type :=
| Response (status_code : Z)
| RaisedConnectTimeout
| RaisedConnectionError
| RaisedOther (e : exn).

(** marshmallow's [URL(schemes=...)] validator, called on a value: it
    returns or raises [ValidationError]. *)
Inductive validation : Type :=
| Validated
| RaisedValidationError.

(** The answers of the outside world during one invocation.  The
    step-function clients and the table only act on the [world]. *)
Record collaborators : Type := Collaborators {
  marshmallow_URL : list string -> string -> validation;
  s3_is_uploaded : string -> bool;
  s3_generate_presigned_url : string -> string;
  rekognition_detect_labels : string -> detect_outcome;
  http_invoke : pyval -> pyval -> http_outcome
}.

(** *** The blob table client

    Modelled from the spec: the DynamoDB client is not among the
    sources; its interface is [create(id, callback_url, status)],
    [get(id) -> record | absent], [update_status(id, status)] and
    [save_labels(id, labels)], every write touching the single item
    keyed by the id.  An update sets one attribute of the item and, as
    DynamoDB's UpdateItem does, creates the item when it is absent. *)
Module blob_dynamodb_client.

Definition item_of (t : gmap string pydict) (blob_id : string) : pydict :=
  match t !! blob_id with
  | Some item => item
  | None => []
  end.

Definition create (blob_id callback_url : string) (status : pyval) : M unit :=
  fun w =>
    (Ok tt,
     log (DbCreate blob_id callback_url status)
       (with_table
          (fun t => <[blob_id := [("callback_url", PStr callback_url); ("status", status)]]> t)
          w)).

(** The item as a dict, [None] when there is none. *)
Definition get_blob (blob_id : string) : M pyval :=
  fun w =>
    (Ok (match table w !! blob_id with
         | Some item => PDict item
         | None => PNone
         end),
     log (DbGetBlob blob_id) w).

Definition update_status (blob_id : string) (status : pyval) : M unit :=
  fun w =>
    (Ok tt,
     log (DbUpdateStatus blob_id status)
       (with_table
          (fun t => <[blob_id := dict_set "status" status (item_of t blob_id)]> t)
          w)).

Definition save_labels (blob_id : string) (labels : pyval) : M unit :=
  fun w =>
    (Ok tt,
     log (DbSaveLabels blob_id labels)
       (with_table
          (fun t => <[blob_id := dict_set "labels" labels (item_of t blob_id)]> t)
          w)).

End blob_dynamodb_client.

Module blob_s3_client.

Definition is_uploaded (c : collaborators) (blob_id : string) : M bool :=
  fun w => (Ok (s3_is_uploaded c blob_id), log (S3IsUploaded blob_id) w).

Definition generate_presigned_url (c : collaborators) (blob_id : string) : M string :=
  fun w =>
    (Ok (s3_generate_presigned_url c blob_id), log (S3GeneratePresignedUrl blob_id) w).

End blob_s3_client.

Module uploading_step_function_client.

Definition launch (blob_id : string) : M unit :=
  fun w => (Ok tt, log (UploadingStepFunctionLaunch blob_id) w).

End uploading_step_function_client.

Module recognition_step_function_client.

Definition launch (blob_id : string) : M unit :=
  fun w => (Ok tt, log (RecognitionStepFunctionLaunch blob_id) w).

End recognition_step_function_client.

Module blob_rekognition_client.

Definition detect_labels (c : collaborators) (blob_id : string) : M pyval :=
  fun w =>
    (match rekognition_detect_labels c blob_id with
     | Detected raw => Ok raw
     | RaisedInvalidBlobHasBeenUploaded message =>
         Raise (RecognitionBaseException InvalidBlobHasBeenUploaded message None)
     | RaisedTooLargeBlobHasBeenUploaded message =>
         Raise (RecognitionBaseException TooLargeBlobHasBeenUploaded message None)
     end,
     log (RekognitionDetectLabels blob_id) w).

End blob_rekognition_client.

(** ** Result objects (dto.py)

    Modelled from the spec: dto.py is not among the sources; the three
    result classes are named tuples of the fields usecase.py passes. *)
Record UploadInitializingResult : Type := {
  uir_blob_id : string;
  uir_upload_url : string;
  uir_callback_url : string
}.

Record RecognitionStepFunctionResult : Type := {
  rsf_blob_id : string;
  rsf_labels : pyval
}.

Record BlobRecognitionResult : Type := {
  brr_blob_id : string;
  brr_labels : pyval
}.

(** Modelled from the spec: [BlobRecognitionResult.as_dict()] of dto.py,
    the JSON body [{blob_id, labels}] sent to the callback. *)
Definition as_dict (r : BlobRecognitionResult) : pyval :=
  PDict [("blob_id", PStr (brr_blob_id r)); ("labels", brr_labels r)].

(** ** The use-cases (usecase.py) *)

Module UrlValidator.

(** [__init__]: the schemes default to http and https. *)
Definition schemes_of (schemes : option (list string)) : list string :=
  match schemes with
  | None => ["http"; "https"]
  | Some l => l
  end.

Definition is_valid_url (c : collaborators) (schemes : option (list string))
    (url : string) : bool :=
  match marshmallow_URL c (schemes_of schemes) url with
  | Validated => true
  | RaisedValidationError => false
  end.

End UrlValidator.

(** [InitializeUploadListening._validate_callback_url]; the validator
    injected is a [UrlValidator] built with its default schemes. *)
Definition _validate_callback_url (c : collaborators) (url : string) : M unit :=
  if negb (UrlValidator.is_valid_url c None url) then
    raise (RecognitionBaseException CallbackUrlIsNotValid
             "Invalid callback url supplied."
             (Some [("callback_url", PStr url)]))
  else ret tt.

Definition InitializeUploadListening (c : collaborators)
    (blob_id callback_url : string) : M UploadInitializingResult :=
  do _validate_callback_url c callback_url then
  do blob_dynamodb_client.create blob_id callback_url (value WAITING_FOR_UPLOAD) then
  do uploading_step_function_client.launch blob_id then
  let* upload_url := blob_s3_client.generate_presigned_url c blob_id in
  ret {| uir_blob_id := blob_id;
         uir_upload_url := upload_url;
         uir_callback_url := callback_url |}.

Definition CheckUploading (c : collaborators) (blob_id : string) : M unit :=
  let* uploaded := blob_s3_client.is_uploaded c blob_id in
  if uploaded : bool then ret tt
  else blob_dynamodb_client.update_status blob_id (value UPLOAD_TIMED_OUT).

Definition StartRecognition (blob_id : string) : M unit :=
  do blob_dynamodb_client.update_status blob_id (value IN_PROGRESS) then
  recognition_step_function_client.launch blob_id.

Definition GetLabels (c : collaborators) (blob_id : string)
    : M RecognitionStepFunctionResult :=
  let* raw_labels_data :=
    try_except (blob_rekognition_client.detect_labels c blob_id)
      (fun e =>
         match e with
         | Recognition InvalidBlobHasBeenUploaded _ _ =>
             Some (do blob_dynamodb_client.update_status blob_id
                        (value INVALID_BLOB_HAS_BEEN_UPLOADED) then
                   raise (RecognitionBaseException RecognitionStepHasBeenFailed
                            (exn_str e) (Some [("blob_id", PStr blob_id)])))
         | Recognition TooLargeBlobHasBeenUploaded _ _ =>
             Some (do blob_dynamodb_client.update_status blob_id
                        (value TOO_LARGE_BLOB_HAS_BEEN_UPLOADED) then
                   raise (RecognitionBaseException RecognitionStepHasBeenFailed
                            (exn_str e) (Some [("blob_id", PStr blob_id)])))
         | _ => None
         end) in
  ret {| rsf_blob_id := blob_id; rsf_labels := raw_labels_data |}.

(** [TransformLabels._transform], the inner comprehension over the
    parents of one label. *)
Definition transform_parents (label : pyval) : res (list pyval) :=
  match py_get label "Parents" (PDict []) with
  | Raise e => Raise e
  | Ok parents =>
      match py_iter parents with
      | Raise e => Raise e
      | Ok ps => comprehension (fun parent => py_get parent "Name" (PStr "")) ps
      end
  end.

(** [TransformLabels._transform], the dict built for one label; its
    items are evaluated in the order they are written. *)
Definition transform_label (label : pyval) : res pyval :=
  match py_get label "Name" (PStr "") with
  | Raise e => Raise e
  | Ok name =>
      match py_get label "Confidence" (PStr "") with
      | Raise e => Raise e
      | Ok confidence =>
          match transform_parents label with
          | Raise e => Raise e
          | Ok parents =>
              Ok (PDict [("label", name);
                         ("confidence", confidence);
                         ("parents", PList parents)])
          end
      end
  end.

Definition _transform (raw_labels_data : pyval) : res pyval :=
  match py_get raw_labels_data "Labels" PNone with
  | Raise e => Raise e
  | Ok labels =>
      match py_iter labels with
      | Raise e => Raise e
      | Ok ls =>
          match comprehension transform_label ls with
          | Raise e => Raise e
          | Ok out => Ok (PList out)
          end
      end
  end.

Definition TransformLabels (blob_id : string) (raw_labels_data : pyval)
    : M RecognitionStepFunctionResult :=
  let* labels := lift (_transform raw_labels_data) in
  ret {| rsf_blob_id := blob_id; rsf_labels := labels |}.

Definition SaveLabels (blob_id : string) (labels : pyval)
    : M RecognitionStepFunctionResult :=
  do blob_dynamodb_client.save_labels blob_id labels then
  ret {| rsf_blob_id := blob_id; rsf_labels := labels |}.

Module Invoker.

Definition SUCCESS : Z := 0.
Definition CALLBACK_FAILURE : Z := 1.
Definition CONNECTION_TIMEOUT : Z := 2.
Definition CONNECTION_ERROR : Z := 3.

Definition invoke (c : collaborators) (url data : pyval) : M Z :=
  fun w =>
    (match http_invoke c url data with
     | Response status_code =>
         Ok (if status_code =? 204 then SUCCESS else CALLBACK_FAILURE)
     | RaisedConnectTimeout => Ok CONNECTION_TIMEOUT
     | RaisedConnectionError => Ok CONNECTION_ERROR
     | RaisedOther e => Raise e
     end,
     log (HttpInvoke url data) w).

End Invoker.

Definition InvokeCallback (c : collaborators) (blob_id : string) (labels : pyval)
    : M RecognitionStepFunctionResult :=
  let* blob := blob_dynamodb_client.get_blob blob_id in
  let* callback_url := lift (py_get blob "callback_url" PNone) in
  let data_to_send := {| brr_blob_id := blob_id; brr_labels := labels |} in
  let* status := Invoker.invoke c callback_url (as_dict data_to_send) in
  do (if status =? Invoker.SUCCESS then
        blob_dynamodb_client.update_status blob_id (value SUCCESS)
      else if status =? Invoker.CALLBACK_FAILURE then
        blob_dynamodb_client.update_status blob_id (value FAILED_DUE_TO_CALLBACK_FAILURE)
      else if status =? Invoker.CONNECTION_TIMEOUT then
        blob_dynamodb_client.update_status blob_id (value FAILED_DUE_TO_CALLBACK_TIME_OUT)
      else if status =? Invoker.CONNECTION_ERROR then
        blob_dynamodb_client.update_status blob_id (value FAILED_DUE_TO_CALLBACK_CONNECTION)
      else ret tt) then
  ret {| rsf_blob_id := blob_id; rsf_labels := labels |}.

Definition HandleUnexpectedError (blob_id : string) : M unit :=
  blob_dynamodb_client.update_status blob_id (value UNEXPECTED_ERROR).

(** The payload [{'blob_id': blob_id, 'status': status}] of the errors
    of [GetRecognitionResult]. *)
Definition status_payload (blob_id : string) (status : pyval) : option pydict :=
  Some [("blob_id", PStr blob_id); ("status", status)].

Definition GetRecognitionResult (blob_id : string) : M BlobRecognitionResult :=
  let* blob := blob_dynamodb_client.get_blob blob_id in
  match blob with
  | PNone =>
      raise (RecognitionBaseException BlobWasNotFound "Blob not found."
               (status_payload blob_id (value NOT_FOUND)))
  | _ =>
      let* status := lift (py_get blob "status" PNone) in
      if is_status status WAITING_FOR_UPLOAD then
        raise (RecognitionBaseException BlobIsNotUploadedYet
                 "Blob hasn't been uploaded yet."
                 (status_payload blob_id status))
      else if is_status status UPLOAD_TIMED_OUT then
        raise (RecognitionBaseException BlobUploadTimedOut
                 "Blob upload is timed out."
                 (status_payload blob_id status))
      else if is_status status IN_PROGRESS then
        raise (RecognitionBaseException BlobRecognitionIsInProgress
                 "Recognition is in progress."
                 (status_payload blob_id status))
      else if is_status status INVALID_BLOB_HAS_BEEN_UPLOADED then
        raise (RecognitionBaseException InvalidBlobHasBeenUploaded
                 "Invalid image format has been uploaded."
                 (status_payload blob_id status))
      else if is_status status TOO_LARGE_BLOB_HAS_BEEN_UPLOADED then
        raise (RecognitionBaseException TooLargeBlobHasBeenUploaded
                 "Too large image has been uploaded."
                 (status_payload blob_id status))
      else if is_status status UNEXPECTED_ERROR then
        raise (RecognitionBaseException UnexpectedErrorOccurred
                 "Unexpected error occurred while recognition, try again."
                 (status_payload blob_id status))
      else
        let* labels := lift (py_get blob "labels" PNone) in
        ret {| brr_blob_id := blob_id; brr_labels := labels |}
  end.

(** ** The external orchestrator

    The triggers (HTTP request, storage notification, workflow step) run
    one use-case per invocation, each time with whatever the outside
    world answers then; the result or the exception goes back to the
    trigger and only the [world] is carried over. *)
Inductive invocation : Type :=
| CallInitializeUploadListening (blob_id callback_url : string)
| CallCheckUploading (blob_id : string)
| CallStartRecognition (blob_id : string)
| CallGetLabels (blob_id : string)
| CallTransformLabels (blob_id : string) (raw_labels_data : pyval)
| CallSaveLabels (blob_id : string) (labels : pyval)
| CallInvokeCallback (blob_id : string) (labels : pyval)
| CallHandleUnexpectedError (blob_id : string)
| CallGetRecognitionResult (blob_id : string).

Definition invoke_usecase (c : collaborators) (i : invocation) (w : world) : world :=
  match i with
  | CallInitializeUploadListening blob_id callback_url =>
      snd (InitializeUploadListening c blob_id callback_url w)
  | CallCheckUploading blob_id => snd (CheckUploading c blob_id w)
  | CallStartRecognition blob_id => snd (StartRecognition blob_id w)
  | CallGetLabels blob_id => snd (GetLabels c blob_id w)
  | CallTransformLabels blob_id raw => snd (TransformLabels blob_id raw w)
  | CallSaveLabels blob_id labels => snd (SaveLabels blob_id labels w)
  | CallInvokeCallback blob_id labels => snd (InvokeCallback c blob_id labels w)
  | CallHandleUnexpectedError blob_id => snd (HandleUnexpectedError blob_id w)
  | CallGetRecognitionResult blob_id => snd (GetRecognitionResult blob_id w)
  end.

Fixpoint orchestrate (steps : list (collaborators * invocation)) (w : world) : world :=
  match steps with
  | [] => w
  | (c, i) :: rest => orchestrate rest (invoke_usecase c i w)
  end.

Definition empty_world : world := World ∅ [].

(** The [status] attribute of the item of a blob, as
    [blob.get('status')] reads it; [None] when there is no item. *)
Definition status_of (w : world) (blob_id : string) : option pyval :=
  match table w !! blob_id with
  | Some item => Some (dict_get item "status" PNone)
  | None => None
  end.

(** ** The state machine of the specification *)

(** The edges: WAITING_FOR_UPLOAD goes to IN_PROGRESS or
    UPLOAD_TIMED_OUT, IN_PROGRESS to its seven successors. *)
Definition edge (s s' : RecognitionStatus) : bool :=
  match s, s' with
  | WAITING_FOR_UPLOAD, (IN_PROGRESS | UPLOAD_TIMED_OUT) => true
  | IN_PROGRESS,
    (INVALID_BLOB_HAS_BEEN_UPLOADED | TOO_LARGE_BLOB_HAS_BEEN_UPLOADED
     | UNEXPECTED_ERROR | SUCCESS | FAILED_DUE_TO_CALLBACK_FAILURE
     | FAILED_DUE_TO_CALLBACK_TIME_OUT | FAILED_DUE_TO_CALLBACK_CONNECTION) => true
  | _, _ => false
  end.

(** Every state other than WAITING_FOR_UPLOAD and IN_PROGRESS. *)
Definition terminal (s : RecognitionStatus) : bool :=
  match s with
  | WAITING_FOR_UPLOAD | IN_PROGRESS => false
  | _ => true
  end.

(** The failure the Result Reader answers for a status, as the
    specification tabulates it; [None] for a status it lists no failure
    for. *)
Definition reader_failure (s : RecognitionStatus) : option recognition_error :=
  match s with
  | WAITING_FOR_UPLOAD => Some BlobIsNotUploadedYet
  | UPLOAD_TIMED_OUT => Some BlobUploadTimedOut
  | IN_PROGRESS => Some BlobRecognitionIsInProgress
  | INVALID_BLOB_HAS_BEEN_UPLOADED => Some InvalidBlobHasBeenUploaded
  | TOO_LARGE_BLOB_HAS_BEEN_UPLOADED => Some TooLargeBlobHasBeenUploaded
  | UNEXPECTED_ERROR => Some UnexpectedErrorOccurred
  | _ => None
  end.

(** ** Sample data *)

Definition sample_labels : pyval :=
  PList [PDict [("label", PStr "Cat");
                ("confidence", PFloat (981 # 10));
                ("parents", PList [PStr "Animal"])]].

Definition sample_item (s : RecognitionStatus) : pydict :=
  [("callback_url", PStr "https://example.com/cb");
   ("status", value s);
   ("labels", sample_labels)].

Definition sample_world (s : RecognitionStatus) : world :=
  World {[ "blob-1" := sample_item s ]} [].

Definition sample_raw_labels_data : pyval :=
  PDict [("Labels",
          PList [PDict [("Name", PStr "Cat");
                        ("Confidence", PFloat (981 # 10));
                        ("Parents", PList [PDict [("Name", PStr "Animal")]])];
                 PDict [("Name", PStr "Animal");
                        ("Confidence", PFloat (995 # 10));
                        ("Parents", PList [])];
                 PDict [("Confidence", PFloat (60 # 1))]]);
         ("LabelModelVersion", PStr "2.0")].

(** The raw payload of scenario B of the specification; [sample_labels]
    is its normal form. *)
Definition cat_raw_labels_data : pyval :=
  PDict [("Labels",
          PList [PDict [("Name", PStr "Cat");
                        ("Confidence", PFloat (981 # 10));
                        ("Parents", PList [PDict [("Name", PStr "Animal")]])]])].

(** A stand-in for marshmallow's validator: the url starts with one of
    the schemes followed by [://]. *)
Definition sample_URL (schemes : list string) (url : string) : validation :=
  if existsb (fun scheme => String.prefix (String.append scheme "://") url) schemes
  then Validated
  else RaisedValidationError.

Definition sample_collaborators
    (uploaded : bool) (detected : detect_outcome) (answer : http_outcome)
    : collaborators :=
  {| marshmallow_URL := sample_URL;
     s3_is_uploaded := fun _ => uploaded;
     s3_generate_presigned_url := fun blob_id => String.append "https://s3.example.com/" blob_id;
     rekognition_detect_labels := fun _ => detected;
     http_invoke := fun _ _ => answer |}.

(** ** Properties stated by the specification *)

(** The status the Callback Dispatcher records for an outcome of the
    delivery, as the specification tabulates it; none for an exception
    that [Invoker.invoke] does not catch. *)
Definition callback_status (o : http_outcome) : option RecognitionStatus :=
  match o with
  | Response status_code =>
      Some (if status_code =? 204 then SUCCESS else FAILED_DUE_TO_CALLBACK_FAILURE)
  | RaisedConnectTimeout => Some FAILED_DUE_TO_CALLBACK_TIME_OUT
  | RaisedConnectionError => Some FAILED_DUE_TO_CALLBACK_CONNECTION
  | RaisedOther _ => None
  end.

(** "The dispatcher classifies every delivery attempt into exactly one
    of four outcomes and returns normally": whenever the blob has an
    item, [InvokeCallback] returns its result and leaves one of the
    four callback statuses. *)
Definition every_delivery_is_classified : Prop :=
  ∀ (c : collaborators) (w : world) (blob_id : string) (labels : pyval),
    is_Some (table w !! blob_id) →
    fst (InvokeCallback c blob_id labels w)
      = Ok {| rsf_blob_id := blob_id; rsf_labels := labels |}
    ∧ ∃ s : RecognitionStatus,
        s ∈ [SUCCESS; FAILED_DUE_TO_CALLBACK_FAILURE;
             FAILED_DUE_TO_CALLBACK_TIME_OUT; FAILED_DUE_TO_CALLBACK_CONNECTION]
        ∧ status_of (snd (InvokeCallback c blob_id labels w)) blob_id
          = Some (value s).

(** A callback endpoint that accepts the connection and does not answer
    within the timeout. *)
Definition read_timeout : http_outcome :=
  RaisedOther (External "requests.exceptions.ReadTimeout"
                 "HTTPSConnectionPool(host='example.com', port=443): Read timed out.").

(** "Under every sequence of use-case invocations, a record's status
    only moves along the edges of the state machine": whatever ran
    before, one more invocation leaves the status of a record where it
    is or moves it along an edge. *)
Definition status_only_moves_along_edges : Prop :=
  ∀ (steps : list (collaborators * invocation)) (c : collaborators)
    (i : invocation) (blob_id : string) (s s' : RecognitionStatus),
    status_of (orchestrate steps empty_world) blob_id = Some (value s) →
    status_of (invoke_usecase c i (orchestrate steps empty_world)) blob_id
      = Some (value s') →
    s' = s ∨ edge s s' = true.

(** The state a step is drawn from in the state machine: the watchdog
    and the recognition trigger act on a blob that waits for its upload,
    the label extractor, the callback dispatcher and the
    unexpected-error handler on a blob in progress; the registrar acts
    on an id of its own (the handler draws a fresh uuid4). *)
Definition designed_source (i : invocation) (blob_id : string) (s : RecognitionStatus)
    : Prop :=
  match i with
  | CallInitializeUploadListening b _ => b ≠ blob_id
  | CallCheckUploading b | CallStartRecognition b =>
      b = blob_id → s = WAITING_FOR_UPLOAD
  | CallGetLabels b | CallInvokeCallback b _ | CallHandleUnexpectedError b =>
      b = blob_id → s = IN_PROGRESS
  | CallTransformLabels _ _ | CallSaveLabels _ _ | CallGetRecognitionResult _ => True
  end.

(** The status an invocation writes for a blob, whatever the status of
    the blob was, read off the use-cases: none when the invocation is
    for another blob id or writes no status. *)
Definition written_status
    (c : collaborators) (i : invocation) (w : world) (blob_id : string)
    : option RecognitionStatus :=
  match i with
  | CallInitializeUploadListening b url =>
      if decide (b = blob_id) then
        if UrlValidator.is_valid_url c None url then Some WAITING_FOR_UPLOAD else None
      else None
  | CallCheckUploading b =>
      if decide (b = blob_id) then
        if s3_is_uploaded c b then None else Some UPLOAD_TIMED_OUT
      else None
  | CallStartRecognition b =>
      if decide (b = blob_id) then Some IN_PROGRESS else None
  | CallGetLabels b =>
      if decide (b = blob_id) then
        match rekognition_detect_labels c b with
        | Detected _ => None
        | RaisedInvalidBlobHasBeenUploaded _ => Some INVALID_BLOB_HAS_BEEN_UPLOADED
        | RaisedTooLargeBlobHasBeenUploaded _ => Some TOO_LARGE_BLOB_HAS_BEEN_UPLOADED
        end
      else None
  | CallInvokeCallback b labels =>
      if decide (b = blob_id) then
        match table w !! b with
        | Some item =>
            callback_status
              (http_invoke c (dict_get item "callback_url" PNone)
                 (as_dict {| brr_blob_id := b; brr_labels := labels |}))
        | None => None
        end
      else None
  | CallHandleUnexpectedError b =>
      if decide (b = blob_id) then Some UNEXPECTED_ERROR else None
  | CallTransformLabels _ _ | CallSaveLabels _ _ | CallGetRecognitionResult _ => None
  end.

(** In a trace, every launch of the recognition workflow comes right
    after the write of IN_PROGRESS for the same blob. *)
Definition launch_follows_write (tr : list event) : Prop :=
  ∀ (n : nat) (blob_id : string),
    tr !! n = Some (RecognitionStepFunctionLaunch blob_id) →
    ∃ m : nat, n = S m ∧ tr !! m = Some (DbUpdateStatus blob_id (value IN_PROGRESS)).

Definition is_dict (v : pyval) : bool :=
  match v with
  | PDict _ => true
  | _ => false
  end.

(** A detected label as the recognition service returns it: a dict
    whose [Parents], when present, is a list of dicts. *)
Definition is_raw_label (v : pyval) : bool :=
  match v with
  | PDict d =>
      match dict_lookup "Parents" d with
      | None => true
      | Some (PList ps) => forallb is_dict ps
      | Some _ => false
      end
  | _ => false
  end.

(** The names of the parents of a detected label, in order. *)
Definition parent_names (d : pydict) : list pyval :=
  match dict_lookup "Parents" d with
  | Some (PList ps) =>
      map (fun p => match p with
                    | PDict pd => dict_get pd "Name" (PStr "")
                    | _ => PNone
                    end) ps
  | _ => []
  end.

(** The canonical entry [{label, confidence, parents}] of a detected
    label, a missing name or confidence being the empty string. *)
Definition canonical_label (label : pyval) : pyval :=
  match label with
  | PDict d =>
      PDict [("label", dict_get d "Name" (PStr ""));
             ("confidence", dict_get d "Confidence" (PStr ""));
             ("parents", PList (parent_names d))]
  | _ => PNone
  end.

Definition is_recognition_launch (e : event) : bool :=
  match e with
  | RecognitionStepFunctionLaunch _ => true
  | _ => false
  end.

(** Scenario B of the specification, from registration to the delivery
    of the labels answered by HTTP 204. *)
Definition scenario_B : list (collaborators * invocation) :=
  let c := sample_collaborators true (Detected cat_raw_labels_data) (Response 204) in
  [(c, CallInitializeUploadListening "blob-1" "https://example.com/cb");
   (c, CallStartRecognition "blob-1");
   (c, CallGetLabels "blob-1");
   (c, CallTransformLabels "blob-1" cat_raw_labels_data);
   (c, CallSaveLabels "blob-1" sample_labels);
   (c, CallInvokeCallback "blob-1" sample_labels)].

(** Scenario C of the specification: the label extractor meets an
    oversized upload. *)
Definition scenario_C : list (collaborators * invocation) :=
  let c := sample_collaborators true
             (RaisedTooLargeBlobHasBeenUploaded "Too large image.") (Response 204) in
  [(c, CallInitializeUploadListening "blob-1" "https://example.com/cb");
   (c, CallStartRecognition "blob-1");
   (c, CallGetLabels "blob-1")].

(** "Under the precondition that 'Labels' is present and a sequence,
    the transformation always succeeds." *)
Definition transform_succeeds_on_any_sequence : Prop :=
  ∀ (blob_id : string) (d : pydict) (ls : list pyval) (w : world),
    dict_lookup "Labels" d = Some (PList ls) →
    ∃ r : RecognitionStepFunctionResult,
      fst (TransformLabels blob_id (PDict d) w) = Ok r.

(** ** Attributes of items, and what an invocation may write *)

(** The attribute [k] of the item of a blob; [None] when the item or
    the attribute is missing. *)
Definition attribute_of (w : world) (blob_id k : string) : option pyval :=
  match table w !! blob_id with
  | Some item => dict_lookup k item
  | None => None
  end.

(** The attributes an invocation can write, read off the calls each
    use-case makes on the table: the registrar creates the whole item
    of its blob, the label persister writes [labels], the other
    writers write [status], and the normalizer and the result reader
    write nothing. *)
Definition may_write (i : invocation) (blob_id k : string) : Prop :=
  match i with
  | CallInitializeUploadListening b _ => b = blob_id
  | CallCheckUploading b | CallStartRecognition b | CallGetLabels b
  | CallInvokeCallback b _ | CallHandleUnexpectedError b =>
      b = blob_id ∧ k = "status"
  | CallSaveLabels b _ => b = blob_id ∧ k = "labels"
  | CallTransformLabels _ _ | CallGetRecognitionResult _ => False
  end.

(** The blob id an invocation is for. *)
Definition blob_of (i : invocation) : string :=
  match i with
  | CallInitializeUploadListening b _ | CallCheckUploading b | CallStartRecognition b
  | CallGetLabels b | CallTransformLabels b _ | CallSaveLabels b _
  | CallInvokeCallback b _ | CallHandleUnexpectedError b
  | CallGetRecognitionResult b => b
  end.

(** The invocation is not a registration of the blob. *)
Definition not_registration_of (blob_id : string) (ci : collaborators * invocation) : Prop :=
  match snd ci with
  | CallInitializeUploadListening b _ => b ≠ blob_id
  | _ => True
  end.

(** The message [GetRecognitionResult] gives each of its failures. *)
Definition reader_message (cls : recognition_error) : string :=
  match cls with
  | BlobWasNotFound => "Blob not found."
  | BlobIsNotUploadedYet => "Blob hasn't been uploaded yet."
  | BlobUploadTimedOut => "Blob upload is timed out."
  | BlobRecognitionIsInProgress => "Recognition is in progress."
  | InvalidBlobHasBeenUploaded => "Invalid image format has been uploaded."
  | TooLargeBlobHasBeenUploaded => "Too large image has been uploaded."
  | UnexpectedErrorOccurred => "Unexpected error occurred while recognition, try again."
  | CallbackUrlIsNotValid | RecognitionStepHasBeenFailed => ""
  end.

(** The failure of the result reader for a blob whose status is [s]. *)
Definition reader_raises (blob_id : string) (s : RecognitionStatus)
    (cls : recognition_error) : res BlobRecognitionResult :=
  Raise (Recognition cls (reader_message cls)
           [("blob_id", PStr blob_id); ("status", value s)]).

(** ** The domain of the label normalizer *)

(** A value that can be iterated and yields only items accepted by
    [p]: a list of such items, or an empty dict or an empty str, which
    yield nothing (a non-empty dict yields its keys and a non-empty str
    its characters, which are strs). *)
Definition yields_only (p : pyval → bool) (v : pyval) : bool :=
  match v with
  | PList items => forallb p items
  | PDict [] => true
  | PStr EmptyString => true
  | _ => false
  end.

(** A label [_transform] can normalize: a dict whose [Parents], or the
    default [{}] when the key is missing, yields only dicts. *)
Definition transformable_label (v : pyval) : bool :=
  match v with
  | PDict d => yields_only is_dict (dict_get d "Parents" (PDict []))
  | _ => false
  end.

(** A payload [_transform] can normalize: a dict whose [Labels], or
    the default [None] when the key is missing, yields only such
    labels. *)
Definition transformable (raw : pyval) : bool :=
  match raw with
  | PDict d => yields_only transformable_label (dict_get d "Labels" PNone)
  | _ => false
  end.

(** ** The calls one invocation makes *)

(** The sequences of collaborator calls a single invocation of a
    use-case can make, read off the use-cases one by one. *)
Inductive usecase_events : list event → Prop :=
| events_rejected : usecase_events []
| events_registered (b url : string) :
    usecase_events [DbCreate b url (value WAITING_FOR_UPLOAD);
                    UploadingStepFunctionLaunch b;
                    S3GeneratePresignedUrl b]
| events_uploaded (b : string) : usecase_events [S3IsUploaded b]
| events_timed_out (b : string) :
    usecase_events [S3IsUploaded b; DbUpdateStatus b (value UPLOAD_TIMED_OUT)]
| events_started (b : string) :
    usecase_events [DbUpdateStatus b (value IN_PROGRESS);
                    RecognitionStepFunctionLaunch b]
| events_detected (b : string) : usecase_events [RekognitionDetectLabels b]
| events_invalid (b : string) :
    usecase_events [RekognitionDetectLabels b;
                    DbUpdateStatus b (value INVALID_BLOB_HAS_BEEN_UPLOADED)]
| events_too_large (b : string) :
    usecase_events [RekognitionDetectLabels b;
                    DbUpdateStatus b (value TOO_LARGE_BLOB_HAS_BEEN_UPLOADED)]
| events_saved (b : string) (labels : pyval) : usecase_events [DbSaveLabels b labels]
| events_read (b : string) : usecase_events [DbGetBlob b]
| events_dispatched (b : string) (url body : pyval) (o : http_outcome)
    (s : RecognitionStatus) :
    callback_status o = Some s →
    usecase_events [DbGetBlob b; HttpInvoke url body; DbUpdateStatus b (value s)]
| events_undelivered (b : string) (url body : pyval) :
    usecase_events [DbGetBlob b; HttpInvoke url body]
| events_unexpected (b : string) :
    usecase_events [DbUpdateStatus b (value UNEXPECTED_ERROR)].

(** The statuses [update_status] is ever called with: every status but
    the initial one, which only [create] writes, and NOT_FOUND. *)
Definition written_by_update (s : RecognitionStatus) : bool :=
  match s with
  | WAITING_FOR_UPLOAD | NOT_FOUND => false
  | _ => true
  end.

Definition status_write_ok (e : event) : Prop :=
  match e with
  | DbUpdateStatus _ v => ∃ s : RecognitionStatus, v = value s ∧ written_by_update s = true
  | DbCreate _ _ v => v = value WAITING_FOR_UPLOAD
  | _ => True
  end.

(** In a trace, an upload target is requested only right after the
    item of the blob was created and its upload watch launched. *)
Definition target_follows_registration (tr : list event) : Prop :=
  ∀ (n : nat) (b : string),
    tr !! n = Some (S3GeneratePresignedUrl b) →
    ∃ (m : nat) (url : string),
      n = S (S m)
      ∧ tr !! m = Some (DbCreate b url (value WAITING_FOR_UPLOAD))
      ∧ tr !! S m = Some (UploadingStepFunctionLaunch b).

(** One of the four statuses the dispatcher records. *)
Definition is_callback_status (s : RecognitionStatus) : bool :=
  match s with
  | SUCCESS | FAILED_DUE_TO_CALLBACK_FAILURE
  | FAILED_DUE_TO_CALLBACK_TIME_OUT | FAILED_DUE_TO_CALLBACK_CONNECTION => true
  | _ => false
  end.

(** In a trace, an HTTP call is made only right after the item of a
    blob was read, and a callback status is written only right after
    an HTTP call that followed the read of the item of that blob. *)
Definition callback_between_read_and_write (tr : list event) : Prop :=
  (∀ (n : nat) (url body : pyval),
     tr !! n = Some (HttpInvoke url body) →
     ∃ (m : nat) (b : string), n = S m ∧ tr !! m = Some (DbGetBlob b))
  ∧ (∀ (n : nat) (b : string) (s : RecognitionStatus),
       tr !! n = Some (DbUpdateStatus b (value s)) →
       is_callback_status s = true →
       ∃ (m : nat) (url body : pyval),
         n = S (S m)
         ∧ tr !! m = Some (DbGetBlob b)
         ∧ tr !! S m = Some (HttpInvoke url body)).

(** ** The recognition workflow *)

(** Modelled from the spec: the definition of the state machine that
    chains the recognition steps is not among the sources.  The steps
    are the four handlers [get_labels_handler],
    [transform_labels_handler], [save_labels_handler] and
    [invoke_callback_handler] of lambdas.py, each fed the [blob_id] and
    the [labels] of the result of the step before; an exception ends
    the chain. *)
Definition recognition_workflow (c : collaborators) (blob_id : string)
    : M RecognitionStepFunctionResult :=
  let* extracted := GetLabels c blob_id in
  let* normalized := TransformLabels (rsf_blob_id extracted) (rsf_labels extracted) in
  let* saved := SaveLabels (rsf_blob_id normalized) (rsf_labels normalized) in
  InvokeCallback c (rsf_blob_id saved) (rsf_labels saved).

(** ** The handlers (lambdas.py) *)

Module lambdas.

(** What a handler can raise: an exception of the use-cases, or one of
    the further built-in exceptions that subscripting an event and
    parsing JSON can raise. *)
Inductive raised : Type :=
| Exception (e : exn)
| IndexError
| KeyError
| JSONDecodeError.

Inductive hres (A : Type) : Type :=
| Returned (a : A)
| Raised (e : raised).
Arguments Returned {A} a.
Arguments Raised {A} e.

Definition of_res {A : Type} (r : res A) : hres A :=
  match r with
  | Ok a => Returned a
  | Raise e => Raised (Exception e)
  end.

Definition hbind {A B : Type} (r : hres A) (k : A → hres B) : hres B :=
  match r with
  | Returned a => k a
  | Raised e => Raised e
  end.

(** [v[0]]: the first item of a list or the first character of a str,
    [IndexError] when there is none; a dict has no key [0] (its keys
    are strs); the other values cannot be subscripted. *)
Definition py_getitem_0 (v : pyval) : hres pyval :=
  match v with
  | PList (x :: _) => Returned x
  | PList [] => Raised IndexError
  | PStr (String c _) => Returned (PStr (String c EmptyString))
  | PStr EmptyString => Raised IndexError
  | PDict _ => Raised KeyError
  | _ => Raised (Exception (Builtin TypeError))
  end.

(** [event.get('Records')[0].get('s3').get('object').get('key')] *)
Definition get_blob_id_from_event (event : pyval) : hres pyval :=
  hbind (of_res (py_get event "Records" PNone)) (fun records =>
  hbind (py_getitem_0 records) (fun record =>
  hbind (of_res (py_get record "s3" PNone)) (fun s3 =>
  hbind (of_res (py_get s3 "object" PNone)) (fun object =>
  of_res (py_get object "key" PNone))))).

(** The dict [event['Records'][0]['s3']['object']] of a storage
    notification, when the event has that shape. *)
Definition s3_object_of (event : pyval) : option pydict :=
  match event with
  | PDict e =>
      match dict_lookup "Records" e with
      | Some (PList (PDict record :: _)) =>
          match dict_lookup "s3" record with
          | Some (PDict s3) =>
              match dict_lookup "object" s3 with
              | Some (PDict object) => Some object
              | _ => None
              end
          | _ => None
          end
      | _ => None
      end
  | _ => None
  end.

Inductive loads_outcome : Type :=
| Loaded (v : pyval)
| LoadsRaisedTypeError
| LoadsRaisedJSONDecodeError.

Inductive dumps_outcome : Type :=
| Dumped (s : string)
| DumpsRaisedTypeError.

(** A value of the body of a [Response]: a JSON-like value, or the
    result object of the registrar, which the handler puts in the body
    as it is. *)
Inductive body_value : Type :=
| BValue (v : pyval)
| BResult (r : UploadInitializingResult).

(** [Response = namedtuple('Response', ['body', 'status_code'])] *)
Record Response : Type := {
  body : list (string * body_value);
  status_code : Z
}.

(** The library and built-in functions the handlers call, as they
    answer during one invocation: [str(uuid4())], [json.loads],
    [json.dumps] on a response body, and [str.strip]. *)
Record runtime : Type := Runtime {
  uuid4_str : string;
  json_loads : pyval → loads_outcome;
  json_dumps : list (string * body_value) → dumps_outcome;
  str_strip : string → string
}.

Definition loads (rt : runtime) (v : pyval) : hres pyval :=
  match json_loads rt v with
  | Loaded parsed => Returned parsed
  | LoadsRaisedTypeError => Raised (Exception (Builtin TypeError))
  | LoadsRaisedJSONDecodeError => Raised JSONDecodeError
  end.

(** [s.strip()]: only a str has the method. *)
Definition py_strip (rt : runtime) (v : pyval) : hres string :=
  match v with
  | PStr s => Returned (str_strip rt s)
  | _ => Raised (Exception (Builtin AttributeError))
  end.

Definition get_callback_url_from_event (rt : runtime) (event : pyval) : hres string :=
  hbind (of_res (py_get event "body" PNone)) (fun raw_body =>
  hbind (loads rt raw_body) (fun parsed =>
  hbind (of_res (py_get parsed "callback_url" (PStr ""))) (fun url =>
  py_strip rt url))).

Definition BAD_REQUEST : Z := 400.
Definition CREATED : Z := 201.

(** [initialize_upload_listening_handler] before its decorator; the
    use-case it is given is [InitializeUploadListening]. *)
Definition initialize_upload_listening_handler_function
    (rt : runtime) (c : collaborators) (event : pyval) (w : world)
    : hres Response * world :=
  let blob_id := uuid4_str rt in
  match get_callback_url_from_event rt event with
  | Raised e => (Raised e, w)
  | Returned callback_url =>
      match InitializeUploadListening c blob_id callback_url w with
      | (Raise (Recognition CallbackUrlIsNotValid message payload), w') =>
          (Returned {| body := [("description", BValue (PStr message));
                                ("payload", BValue (PDict payload))];
                       status_code := BAD_REQUEST |},
           w')
      | (Raise e, w') => (Raised (Exception e), w')
      | (Ok upload_url, w') =>
          (Returned {| body := [("blob_id", BValue (PStr blob_id));
                                ("callback_url", BValue (PStr callback_url));
                                ("upload_url", BResult upload_url)];
                       status_code := CREATED |},
           w')
      end
  end.

Definition with_http_api_response_format
    (rt : runtime) (function : world → hres Response * world) (w : world)
    : hres pyval * world :=
  match function w with
  | (Raised e, w') => (Raised e, w')
  | (Returned response, w') =>
      match json_dumps rt (body response) with
      | DumpsRaisedTypeError => (Raised (Exception (Builtin TypeError)), w')
      | Dumped dumped =>
          (Returned (PDict [("isBase64Encoded", PBool false);
                            ("statusCode", PInt (status_code response));
                            ("headers",
                             PDict [("Content-Type", PStr "application/json")]);
                            ("body", PStr dumped)]),
           w')
      end
  end.

Definition initialize_upload_listening_handler
    (rt : runtime) (c : collaborators) (event : pyval) : world → hres pyval * world :=
  with_http_api_response_format rt
    (initialize_upload_listening_handler_function rt c event).

End lambdas.

(** Stand-ins for the runtime: the body of the event parses to
    [parsed], any response body dumps to [dumped], and [strip] finds
    nothing to remove. *)
Definition sample_runtime (parsed : pyval) (dumped : string) : lambdas.runtime :=
  {| lambdas.uuid4_str := "6f1c2a9e-0000-4000-8000-000000000001";
     lambdas.json_loads := fun v => match v with
                            | PStr _ => lambdas.Loaded parsed
                            | _ => lambdas.LoadsRaisedTypeError
                            end;
     lambdas.json_dumps := fun _ => lambdas.Dumped dumped;
     lambdas.str_strip := fun s => s |}.

Definition sample_http_event : pyval :=
  PDict [("body", PStr "{...}")].

Definition sample_s3_event : pyval :=
  PDict [("Records",
          PList [PDict [("eventName", PStr "ObjectCreated:Put");
                        ("s3", PDict [("bucket", PDict [("name", PStr "blobs")]);
                                      ("object", PDict [("key", PStr "blob-1");
                                                        ("size", PInt 1024)])])];
                 PDict [("s3", PDict [("object", PDict [("key", PStr "blob-2")])])]])].

(** ** Facts about dicts and status values *)

Lemma dict_lookup_set_eq (k : string) (v : pyval) (d : pydict) :
  dict_lookup k (dict_set k v d) = Some v.
Proof.
  induction d as [|[k' v'] d IH]; simpl.
  - by rewrite String.eqb_refl.
  - destruct (String.eqb k' k) eqn:E; simpl.
    + by rewrite String.eqb_refl.
    + by rewrite E.
Qed.

Lemma dict_lookup_set_ne (k k' : string) (v : pyval) (d : pydict) :
  k' ≠ k → dict_lookup k' (dict_set k v d) = dict_lookup k' d.
Proof.
  intros Hne. induction d as [|[k0 v0] d IH]; simpl.
  - destruct (String.eqb k k') eqn:E; [|done].
    apply String.eqb_eq in E. congruence.
  - destruct (String.eqb k0 k) eqn:E; simpl.
    + apply String.eqb_eq in E. subst k0.
      destruct (String.eqb k k') eqn:E'; [|done].
      apply String.eqb_eq in E'. congruence.
    + by rewrite IH.
Qed.

Lemma dict_set_idem (k : string) (v : pyval) (d : pydict) :
  dict_set k v (dict_set k v d) = dict_set k v d.
Proof.
  induction d as [|[k' v'] d IH]; simpl.
  - by rewrite String.eqb_refl.
  - destruct (String.eqb k' k) eqn:E; simpl.
    + by rewrite String.eqb_refl.
    + by rewrite E, IH.
Qed.

Lemma dict_get_set_eq (k : string) (v dflt : pyval) (d : pydict) :
  dict_get (dict_set k v d) k dflt = v.
Proof. unfold dict_get. by rewrite dict_lookup_set_eq. Qed.

Lemma is_status_true (v : pyval) (s : RecognitionStatus) :
  is_status v s = true ↔ v = value s.
Proof.
  unfold is_status, value, py_eq_str. split.
  - destruct v; try discriminate. intros H. apply String.eqb_eq in H. by subst.
  - intros ->. apply String.eqb_refl.
Qed.

Lemma status_name_inj (s s' : RecognitionStatus) :
  status_name s = status_name s' → s = s'.
Proof. destruct s, s'; simpl; intros H; try reflexivity; discriminate H. Qed.

Lemma value_inj (s s' : RecognitionStatus) : value s = value s' → s = s'.
Proof. unfold value. intros H. apply status_name_inj. congruence. Qed.

(** ** The Result Reader *)

Ltac reader_branch H :=
  let E := fresh "E" in
  destruct (is_status _ _) eqn:E in |- *;
  [ apply is_status_true in E; apply H in E; discriminate E
  | clear E ].

Lemma GetRecognitionResult_world (w : world) (blob_id : string) :
  snd (GetRecognitionResult blob_id w) = log (DbGetBlob blob_id) w.
Proof.
  unfold GetRecognitionResult, bind, blob_dynamodb_client.get_blob, lift, raise, ret.
  simpl. destruct (table w !! blob_id) as [item|]; simpl; [|done].
  repeat (destruct (is_status _ _); [done|]). done.
Qed.

(** C1. For every blob id, [GetRecognitionResult] raises
    [BlobWasNotFound] when the table has no item for the id (the payload
    holds the blob id and the status NOT_FOUND); when the item's status
    is one of WAITING_FOR_UPLOAD, UPLOAD_TIMED_OUT, IN_PROGRESS,
    INVALID_BLOB_HAS_BEEN_UPLOADED, TOO_LARGE_BLOB_HAS_BEEN_UPLOADED,
    UNEXPECTED_ERROR it raises the one failure tabulated for that
    status, with payload [{blob_id, status}]; in every case the table
    is left as it was and the only collaborator call is one read. *)
Theorem GetRecognitionResult_maps_status (w : world) (blob_id : string) :
  snd (GetRecognitionResult blob_id w) = log (DbGetBlob blob_id) w ∧
  table (snd (GetRecognitionResult blob_id w)) = table w ∧
  (table w !! blob_id = None →
   fst (GetRecognitionResult blob_id w) =
   Raise (Recognition BlobWasNotFound "Blob not found."
            [("blob_id", PStr blob_id); ("status", value NOT_FOUND)])) ∧
  (∀ (s : RecognitionStatus) (cls : recognition_error),
     status_of w blob_id = Some (value s) →
     reader_failure s = Some cls →
     ∃ message : string,
       fst (GetRecognitionResult blob_id w) =
       Raise (Recognition cls message
                [("blob_id", PStr blob_id); ("status", value s)])).
Proof.
  pose proof (GetRecognitionResult_world w blob_id) as Hw.
  split; [exact Hw|]. split; [by rewrite Hw|]. split.
  - intros Hnone.
    unfold GetRecognitionResult, bind, blob_dynamodb_client.get_blob. simpl.
    by rewrite Hnone.
  - intros s cls Hs Hcls. unfold status_of in Hs.
    unfold GetRecognitionResult, bind, blob_dynamodb_client.get_blob, lift. simpl.
    destruct (table w !! blob_id) as [item|]; [|discriminate]. simpl.
    injection Hs as Hs. rewrite Hs.
    destruct s; simpl in Hcls; try discriminate; injection Hcls as <-;
      vm_compute; eexists; reflexivity.
Qed.

Lemma GetRecognitionResult_maps_status_witness :
  fst (GetRecognitionResult "blob-1" (sample_world UPLOAD_TIMED_OUT)) =
  Raise (Recognition BlobUploadTimedOut "Blob upload is timed out."
           [("blob_id", PStr "blob-1"); ("status", value UPLOAD_TIMED_OUT)])
  ∧ fst (GetRecognitionResult "blob-2" (sample_world UPLOAD_TIMED_OUT)) =
    Raise (Recognition BlobWasNotFound "Blob not found."
             [("blob_id", PStr "blob-2"); ("status", value NOT_FOUND)]).
Proof.
  destruct (GetRecognitionResult_maps_status (sample_world UPLOAD_TIMED_OUT) "blob-1")
    as (_ & _ & _ & Hmap).
  destruct (GetRecognitionResult_maps_status (sample_world UPLOAD_TIMED_OUT) "blob-2")
    as (_ & _ & Hnone & _).
  split.
  - destruct (Hmap UPLOAD_TIMED_OUT BlobUploadTimedOut) as [message Hm];
      [reflexivity | reflexivity |].
    reflexivity.
  - apply Hnone. reflexivity.
Defined.

(** C2. When the item of a blob has a status that is none of the six
    statuses [GetRecognitionResult] compares with — in particular
    SUCCESS, FAILED_DUE_TO_CALLBACK_FAILURE,
    FAILED_DUE_TO_CALLBACK_TIME_OUT and
    FAILED_DUE_TO_CALLBACK_CONNECTION — the call raises nothing and
    returns [{blob_id, labels}] with the labels read from the item. *)
Theorem GetRecognitionResult_falls_through
    (w : world) (blob_id : string) (item : pydict) :
  table w !! blob_id = Some item →
  ((∀ s : RecognitionStatus,
      dict_get item "status" PNone = value s → reader_failure s = None) →
   GetRecognitionResult blob_id w =
   (Ok {| brr_blob_id := blob_id; brr_labels := dict_get item "labels" PNone |},
    log (DbGetBlob blob_id) w))
  ∧ (∀ s : RecognitionStatus,
       s ∈ [SUCCESS; FAILED_DUE_TO_CALLBACK_FAILURE;
            FAILED_DUE_TO_CALLBACK_TIME_OUT; FAILED_DUE_TO_CALLBACK_CONNECTION] →
       dict_get item "status" PNone = value s →
       GetRecognitionResult blob_id w =
       (Ok {| brr_blob_id := blob_id; brr_labels := dict_get item "labels" PNone |},
        log (DbGetBlob blob_id) w)).
Proof.
  intros Hitem.
  assert (Hgen : (∀ s : RecognitionStatus,
      dict_get item "status" PNone = value s → reader_failure s = None) →
   GetRecognitionResult blob_id w =
   (Ok {| brr_blob_id := blob_id; brr_labels := dict_get item "labels" PNone |},
    log (DbGetBlob blob_id) w)).
  { intros H.
    unfold GetRecognitionResult, bind, blob_dynamodb_client.get_blob, lift, raise, ret.
    simpl. rewrite Hitem. simpl.
    repeat reader_branch H. reflexivity. }
  split; [exact Hgen|].
  intros s Hs Hst. apply Hgen. intros s' Hs'.
  rewrite Hst in Hs'. apply value_inj in Hs'. subst s'.
  repeat (apply elem_of_cons in Hs as [-> | Hs]; [reflexivity|]).
  by apply elem_of_nil in Hs.
Qed.

Lemma GetRecognitionResult_falls_through_witness :
  GetRecognitionResult "blob-1" (sample_world FAILED_DUE_TO_CALLBACK_TIME_OUT) =
  (Ok {| brr_blob_id := "blob-1"; brr_labels := sample_labels |},
   log (DbGetBlob "blob-1") (sample_world FAILED_DUE_TO_CALLBACK_TIME_OUT)).
Proof.
  apply (proj2 (GetRecognitionResult_falls_through
                  (sample_world FAILED_DUE_TO_CALLBACK_TIME_OUT) "blob-1"
                  (sample_item FAILED_DUE_TO_CALLBACK_TIME_OUT) eq_refl)
           FAILED_DUE_TO_CALLBACK_TIME_OUT).
  - do 2 apply list_elem_of_further. apply list_elem_of_here.
  - reflexivity.
Defined.

(** ** Writes to the blob table *)

Lemma update_status_writes (blob_id : string) (v : pyval) (w : world) :
  status_of (snd (blob_dynamodb_client.update_status blob_id v w)) blob_id = Some v.
Proof.
  unfold status_of, blob_dynamodb_client.update_status. simpl.
  rewrite lookup_insert_eq. by rewrite dict_get_set_eq.
Qed.

Lemma update_status_other (blob_id other : string) (v : pyval) (w : world) :
  blob_id ≠ other →
  status_of (snd (blob_dynamodb_client.update_status blob_id v w)) other
  = status_of w other.
Proof.
  intros Hne. unfold status_of, blob_dynamodb_client.update_status. simpl.
  by rewrite lookup_insert_ne.
Qed.

Lemma update_status_trace (blob_id : string) (v : pyval) (w : world) :
  trace (snd (blob_dynamodb_client.update_status blob_id v w))
  = trace w ++ [DbUpdateStatus blob_id v].
Proof. reflexivity. Qed.

Lemma save_labels_keeps_status (blob_id other : string) (labels : pyval) (w : world) :
  status_of (snd (blob_dynamodb_client.save_labels blob_id labels w)) other
  = match status_of w other with
    | Some v => Some v
    | None => if decide (blob_id = other) then Some PNone else None
    end.
Proof.
  unfold status_of, blob_dynamodb_client.save_labels, blob_dynamodb_client.item_of.
  simpl. destruct (decide (blob_id = other)) as [->|Hne].
  - rewrite lookup_insert_eq. unfold dict_get.
    rewrite dict_lookup_set_ne by discriminate.
    by destruct (table w !! other).
  - rewrite lookup_insert_ne by done. by destruct (table w !! other).
Qed.

(** ** The Callback Dispatcher *)

Lemma InvokeCallback_run
    (c : collaborators) (w : world) (blob_id : string) (labels : pyval) (item : pydict)
    (s : RecognitionStatus) :
  table w !! blob_id = Some item →
  callback_status
    (http_invoke c (dict_get item "callback_url" PNone)
       (as_dict {| brr_blob_id := blob_id; brr_labels := labels |})) = Some s →
  InvokeCallback c blob_id labels w =
  (Ok {| rsf_blob_id := blob_id; rsf_labels := labels |},
   snd (blob_dynamodb_client.update_status blob_id (value s)
          (log (HttpInvoke (dict_get item "callback_url" PNone)
                  (as_dict {| brr_blob_id := blob_id; brr_labels := labels |}))
             (log (DbGetBlob blob_id) w)))).
Proof.
  intros Hitem Hs.
  unfold InvokeCallback, bind, blob_dynamodb_client.get_blob, lift, Invoker.invoke, ret.
  simpl. rewrite Hitem. simpl.
  destruct (http_invoke c _ _) as [code| | |e]; simpl in Hs |- *;
    [|by injection Hs as <-..|discriminate Hs].
  injection Hs as <-. destruct (code =? 204); reflexivity.
Qed.

Lemma InvokeCallback_run_uncaught
    (c : collaborators) (w : world) (blob_id : string) (labels : pyval) (item : pydict)
    (e : exn) :
  table w !! blob_id = Some item →
  http_invoke c (dict_get item "callback_url" PNone)
    (as_dict {| brr_blob_id := blob_id; brr_labels := labels |}) = RaisedOther e →
  InvokeCallback c blob_id labels w =
  (Raise e,
   log (HttpInvoke (dict_get item "callback_url" PNone)
          (as_dict {| brr_blob_id := blob_id; brr_labels := labels |}))
     (log (DbGetBlob blob_id) w)).
Proof.
  intros Hitem He.
  unfold InvokeCallback, bind, blob_dynamodb_client.get_blob, lift, Invoker.invoke, ret.
  simpl. rewrite Hitem. simpl. by rewrite He.
Qed.

Lemma InvokeCallback_unknown
    (c : collaborators) (w : world) (blob_id : string) (labels : pyval) :
  table w !! blob_id = None →
  InvokeCallback c blob_id labels w
  = (Raise (Builtin AttributeError), log (DbGetBlob blob_id) w).
Proof.
  intros Hnone.
  unfold InvokeCallback, bind, blob_dynamodb_client.get_blob. simpl.
  by rewrite Hnone.
Qed.

(** The world [InvokeCallback] leaves, for a blob that has an item. *)
Lemma InvokeCallback_world
    (c : collaborators) (w : world) (blob_id : string) (labels : pyval) (item : pydict) :
  table w !! blob_id = Some item →
  snd (InvokeCallback c blob_id labels w)
  = match callback_status
            (http_invoke c (dict_get item "callback_url" PNone)
               (as_dict {| brr_blob_id := blob_id; brr_labels := labels |})) with
    | Some s =>
        snd (blob_dynamodb_client.update_status blob_id (value s)
               (log (HttpInvoke (dict_get item "callback_url" PNone)
                       (as_dict {| brr_blob_id := blob_id; brr_labels := labels |}))
                  (log (DbGetBlob blob_id) w)))
    | None =>
        log (HttpInvoke (dict_get item "callback_url" PNone)
               (as_dict {| brr_blob_id := blob_id; brr_labels := labels |}))
          (log (DbGetBlob blob_id) w)
    end.
Proof.
  intros Hitem.
  destruct (callback_status _) as [s|] eqn:Hs.
  - by rewrite (InvokeCallback_run c w blob_id labels item s Hitem Hs).
  - destruct (http_invoke c _ _) as [code| | |e] eqn:He; try discriminate Hs.
    by rewrite (InvokeCallback_run_uncaught c w blob_id labels item e Hitem He).
Qed.

(** C3. The claim fails on the code.  For a registered blob whose
    callback endpoint accepts the connection and does not answer within
    the timeout, the HTTP call raises [ReadTimeout], which is neither
    of the two exceptions [Invoker.invoke] catches: the exception
    leaves [InvokeCallback], no status is written and the blob stays
    IN_PROGRESS.  So there is a fifth outcome, and it is raised to the
    orchestrator. *)
Theorem InvokeCallback_read_timeout :
  let c := sample_collaborators true (Detected PNone) read_timeout in
  let w := sample_world IN_PROGRESS in
  fst (InvokeCallback c "blob-1" sample_labels w)
    = Raise (External "requests.exceptions.ReadTimeout"
               "HTTPSConnectionPool(host='example.com', port=443): Read timed out.")
  ∧ trace (snd (InvokeCallback c "blob-1" sample_labels w))
    = [DbGetBlob "blob-1";
       HttpInvoke (PStr "https://example.com/cb")
         (as_dict {| brr_blob_id := "blob-1"; brr_labels := sample_labels |})]
  ∧ table (snd (InvokeCallback c "blob-1" sample_labels w)) = table w
  ∧ status_of (snd (InvokeCallback c "blob-1" sample_labels w)) "blob-1"
    = Some (value IN_PROGRESS)
  ∧ ¬ every_delivery_is_classified.
Proof.
  intros c w.
  assert (Hrun : InvokeCallback c "blob-1" sample_labels w
                 = (Raise (External "requests.exceptions.ReadTimeout"
                             "HTTPSConnectionPool(host='example.com', port=443): Read timed out."),
                    log (HttpInvoke (PStr "https://example.com/cb")
                           (as_dict {| brr_blob_id := "blob-1";
                                       brr_labels := sample_labels |}))
                      (log (DbGetBlob "blob-1") w))).
  { apply (InvokeCallback_run_uncaught c w "blob-1" sample_labels
             (sample_item IN_PROGRESS)); reflexivity. }
  rewrite Hrun. repeat split.
  intros Hall.
  destruct (Hall c w "blob-1" sample_labels) as [Hret _].
  - eexists. reflexivity.
  - rewrite Hrun in Hret. discriminate Hret.
Qed.

(** ** The Upload Registrar *)

(** C4. When the validator rejects the callback url,
    [InitializeUploadListening] raises [CallbackUrlIsNotValid] with the
    url in its payload and has no effect: the table is the same (no
    record created) and the trace is the same (no workflow launched, no
    upload target requested, no call on any collaborator). *)
Theorem InitializeUploadListening_rejects
    (c : collaborators) (w : world) (blob_id callback_url : string) :
  UrlValidator.is_valid_url c None callback_url = false →
  fst (InitializeUploadListening c blob_id callback_url w)
    = Raise (Recognition CallbackUrlIsNotValid "Invalid callback url supplied."
               [("callback_url", PStr callback_url)])
  ∧ snd (InitializeUploadListening c blob_id callback_url w) = w
  ∧ table (snd (InitializeUploadListening c blob_id callback_url w)) !! blob_id
    = table w !! blob_id
  ∧ trace (snd (InitializeUploadListening c blob_id callback_url w)) = trace w.
Proof.
  intros Hrej.
  unfold InitializeUploadListening, bind, _validate_callback_url.
  rewrite Hrej. simpl. done.
Qed.

Lemma InitializeUploadListening_rejects_witness :
  InitializeUploadListening (sample_collaborators false (Detected PNone) (Response 204))
    "blob-7" "ftp://example.com/cb" empty_world
  = (Raise (Recognition CallbackUrlIsNotValid "Invalid callback url supplied."
              [("callback_url", PStr "ftp://example.com/cb")]),
     empty_world).
Proof.
  destruct (InitializeUploadListening_rejects
              (sample_collaborators false (Detected PNone) (Response 204))
              empty_world "blob-7" "ftp://example.com/cb" eq_refl)
    as (Hraise & Hworld & _).
  apply injective_projections; [exact Hraise | exact Hworld].
Defined.

(** ** The Label Extractor *)

Lemma GetLabels_world (c : collaborators) (w : world) (blob_id : string) :
  snd (GetLabels c blob_id w)
  = match rekognition_detect_labels c blob_id with
    | Detected _ => log (RekognitionDetectLabels blob_id) w
    | RaisedInvalidBlobHasBeenUploaded _ =>
        snd (blob_dynamodb_client.update_status blob_id
               (value INVALID_BLOB_HAS_BEEN_UPLOADED)
               (log (RekognitionDetectLabels blob_id) w))
    | RaisedTooLargeBlobHasBeenUploaded _ =>
        snd (blob_dynamodb_client.update_status blob_id
               (value TOO_LARGE_BLOB_HAS_BEEN_UPLOADED)
               (log (RekognitionDetectLabels blob_id) w))
    end.
Proof.
  unfold GetLabels, bind, try_except, blob_rekognition_client.detect_labels.
  by destruct (rekognition_detect_labels c blob_id).
Qed.

(** C5. [GetLabels] has three outcomes, one per answer of the
    recognition capability: on success it returns the raw payload
    unchanged with the blob id and writes nothing; on an unsupported
    image format it writes INVALID_BLOB_HAS_BEEN_UPLOADED and then
    raises [RecognitionStepHasBeenFailed] with the blob id in the
    payload; on a too large content it writes
    TOO_LARGE_BLOB_HAS_BEEN_UPLOADED and then raises
    [RecognitionStepHasBeenFailed] with the blob id in the payload. *)
Theorem GetLabels_three_outcomes (c : collaborators) (w : world) (blob_id : string) :
  let w' := snd (GetLabels c blob_id w) in
  match rekognition_detect_labels c blob_id with
  | Detected raw_labels_data =>
      fst (GetLabels c blob_id w)
        = Ok {| rsf_blob_id := blob_id; rsf_labels := raw_labels_data |}
      ∧ table w' = table w
      ∧ trace w' = trace w ++ [RekognitionDetectLabels blob_id]
  | RaisedInvalidBlobHasBeenUploaded message =>
      fst (GetLabels c blob_id w)
        = Raise (Recognition RecognitionStepHasBeenFailed message
                   [("blob_id", PStr blob_id)])
      ∧ status_of w' blob_id = Some (value INVALID_BLOB_HAS_BEEN_UPLOADED)
      ∧ trace w' = trace w ++ [RekognitionDetectLabels blob_id;
                               DbUpdateStatus blob_id
                                 (value INVALID_BLOB_HAS_BEEN_UPLOADED)]
  | RaisedTooLargeBlobHasBeenUploaded message =>
      fst (GetLabels c blob_id w)
        = Raise (Recognition RecognitionStepHasBeenFailed message
                   [("blob_id", PStr blob_id)])
      ∧ status_of w' blob_id = Some (value TOO_LARGE_BLOB_HAS_BEEN_UPLOADED)
      ∧ trace w' = trace w ++ [RekognitionDetectLabels blob_id;
                               DbUpdateStatus blob_id
                                 (value TOO_LARGE_BLOB_HAS_BEEN_UPLOADED)]
  end.
Proof.
  intros w'. subst w'. rewrite GetLabels_world.
  unfold GetLabels, bind, try_except, blob_rekognition_client.detect_labels.
  destruct (rekognition_detect_labels c blob_id) as [raw|message|message].
  - done.
  - split; [done|]. split; [apply update_status_writes|].
    rewrite update_status_trace. simpl. by rewrite <- app_assoc.
  - split; [done|]. split; [apply update_status_writes|].
    rewrite update_status_trace. simpl. by rewrite <- app_assoc.
Qed.

(** ** The Recognition Trigger *)

(** C9. Running [StartRecognition] twice for one blob id: neither run
    raises, the second run leaves the table as the first one left it,
    and the status of the blob is IN_PROGRESS after the first run and
    still after the second. *)
Theorem StartRecognition_idempotent (w : world) (blob_id : string) :
  let w1 := snd (StartRecognition blob_id w) in
  let w2 := snd (StartRecognition blob_id w1) in
  fst (StartRecognition blob_id w) = Ok tt
  ∧ fst (StartRecognition blob_id w1) = Ok tt
  ∧ table w2 = table w1
  ∧ status_of w1 blob_id = Some (value IN_PROGRESS)
  ∧ status_of w2 blob_id = Some (value IN_PROGRESS).
Proof.
  simpl. repeat split.
  - unfold StartRecognition, bind, blob_dynamodb_client.update_status,
      recognition_step_function_client.launch, blob_dynamodb_client.item_of. simpl.
    rewrite lookup_insert_eq, dict_set_idem. apply insert_insert_eq.
  - unfold status_of. simpl. rewrite lookup_insert_eq. by rewrite dict_get_set_eq.
  - unfold status_of. simpl. rewrite lookup_insert_eq. by rewrite dict_get_set_eq.
Qed.

Lemma launch_follows_write_quiet (tr chunk : list event) :
  launch_follows_write tr →
  Forall (λ e, is_recognition_launch e = false) chunk →
  launch_follows_write (tr ++ chunk).
Proof.
  intros Htr Hquiet n blob_id Hn.
  destruct (decide (n < length tr)%nat) as [Hlt|Hge].
  - rewrite lookup_app_l in Hn by exact Hlt.
    destruct (Htr n blob_id Hn) as (m & -> & Hm).
    exists m. split; [done|]. rewrite lookup_app_l by lia. exact Hm.
  - rewrite lookup_app_r in Hn by lia.
    rewrite Forall_lookup in Hquiet. by apply Hquiet in Hn.
Qed.

Lemma launch_follows_write_start (tr : list event) (blob_id : string) :
  launch_follows_write tr →
  launch_follows_write
    (tr ++ [DbUpdateStatus blob_id (value IN_PROGRESS);
            RecognitionStepFunctionLaunch blob_id]).
Proof.
  intros Htr n b Hn.
  destruct (decide (n < length tr)%nat) as [Hlt|Hge].
  - rewrite lookup_app_l in Hn by exact Hlt.
    destruct (Htr n b Hn) as (m & -> & Hm).
    exists m. split; [done|]. rewrite lookup_app_l by lia. exact Hm.
  - rewrite lookup_app_r in Hn by lia.
    destruct (n - length tr)%nat as [|[|k]] eqn:Hk; simpl in Hn; try discriminate.
    injection Hn as ->.
    exists (length tr). split; [lia|].
    rewrite lookup_app_r by lia. by rewrite Nat.sub_diag.
Qed.

Ltac quiet_chunk :=
  rewrite <- ?app_assoc; simpl;
  first [ eexists; split; [reflexivity | left; repeat constructor]
        | exists []; split; [by rewrite app_nil_r | left; constructor] ].

(** What one invocation adds to the trace. *)
Lemma invoke_usecase_trace (c : collaborators) (i : invocation) (w : world) :
  ∃ chunk : list event,
    trace (invoke_usecase c i w) = trace w ++ chunk ∧
    (Forall (λ e, is_recognition_launch e = false) chunk
     ∨ ∃ blob_id : string,
         chunk = [DbUpdateStatus blob_id (value IN_PROGRESS);
                  RecognitionStepFunctionLaunch blob_id]).
Proof.
  destruct i as [b url|b|b|b|b raw|b labels|b labels|b|b]; simpl.
  - unfold InitializeUploadListening, bind, _validate_callback_url.
    destruct (negb _); simpl; quiet_chunk.
  - unfold CheckUploading, bind, blob_s3_client.is_uploaded. simpl.
    destruct (s3_is_uploaded c b); simpl; quiet_chunk.
  - exists [DbUpdateStatus b (value IN_PROGRESS); RecognitionStepFunctionLaunch b].
    split; [|right; by exists b].
    unfold StartRecognition, bind. simpl. by rewrite <- app_assoc.
  - rewrite GetLabels_world.
    destruct (rekognition_detect_labels c b); simpl; quiet_chunk.
  - unfold TransformLabels, bind, lift.
    destruct (_transform raw); simpl; quiet_chunk.
  - unfold SaveLabels, bind. simpl. quiet_chunk.
  - destruct (table w !! b) as [item|] eqn:Hitem.
    + rewrite (InvokeCallback_world c w b labels item Hitem).
      destruct (callback_status _); simpl; quiet_chunk.
    + rewrite (InvokeCallback_unknown c w b labels Hitem). simpl. quiet_chunk.
  - unfold HandleUnexpectedError. simpl. quiet_chunk.
  - rewrite GetRecognitionResult_world. simpl. quiet_chunk.
Qed.

Lemma orchestrate_launch_follows_write
    (steps : list (collaborators * invocation)) (w : world) :
  launch_follows_write (trace w) →
  launch_follows_write (trace (orchestrate steps w)).
Proof.
  revert w. induction steps as [|[c i] steps IH]; intros w Hw; simpl; [exact Hw|].
  apply IH.
  destruct (invoke_usecase_trace c i w) as (chunk & -> & [Hquiet | [b ->]]).
  - by apply launch_follows_write_quiet.
  - by apply launch_follows_write_start.
Qed.

(** C7. [StartRecognition] performs its two effects in a fixed order:
    the write of IN_PROGRESS, then the launch of the recognition
    workflow, which therefore starts in a world where the status is
    already IN_PROGRESS; and in the trace of any sequence of use-case
    invocations every launch of the recognition workflow comes right
    after the write of IN_PROGRESS for the same blob. *)
Theorem StartRecognition_writes_before_launch :
  (∀ (w : world) (blob_id : string),
     trace (snd (StartRecognition blob_id w))
       = trace w ++ [DbUpdateStatus blob_id (value IN_PROGRESS);
                     RecognitionStepFunctionLaunch blob_id]
     ∧ ∃ w_written : world,
         w_written = snd (blob_dynamodb_client.update_status blob_id
                            (value IN_PROGRESS) w)
         ∧ status_of w_written blob_id = Some (value IN_PROGRESS)
         ∧ StartRecognition blob_id w
           = recognition_step_function_client.launch blob_id w_written)
  ∧ (∀ steps : list (collaborators * invocation),
       launch_follows_write (trace (orchestrate steps empty_world))).
Proof.
  split.
  - intros w blob_id. split.
    + unfold StartRecognition, bind. simpl. by rewrite <- app_assoc.
    + eexists. split; [reflexivity|]. split; [apply update_status_writes|].
      reflexivity.
  - intros steps. apply orchestrate_launch_follows_write.
    intros n blob_id Hn. simpl in Hn. by rewrite lookup_nil in Hn.
Qed.

(** ** The state machine *)

Lemma status_of_written
    (b blob_id : string) (v : pyval) (d : pydict)
    (t : gmap string pydict) (tr : list event) :
  status_of (World (<[b := dict_set "status" v d]> t) tr) blob_id
  = if decide (b = blob_id) then Some v else status_of (World t []) blob_id.
Proof.
  unfold status_of. simpl. destruct (decide (b = blob_id)) as [->|Hne].
  - rewrite lookup_insert_eq. by rewrite dict_get_set_eq.
  - by rewrite lookup_insert_ne.
Qed.

Lemma status_of_table (w : world) (tr : list event) (blob_id : string) :
  status_of (World (table w) tr) blob_id = status_of w blob_id.
Proof. reflexivity. Qed.

Lemma edge_callback_status (o : http_outcome) (s : RecognitionStatus) :
  callback_status o = Some s → edge IN_PROGRESS s = true.
Proof.
  destruct o as [code| | |e]; simpl; intros H; try discriminate H;
    injection H as <-; [destruct (code =? 204)| |]; reflexivity.
Qed.

Ltac written Hs :=
  unfold log, with_table; simpl;
  rewrite status_of_written, ?status_of_table;
  case_decide; simpl; [reflexivity | exact Hs].

(** The status after one invocation is the status the invocation
    writes, or the status before when it writes none. *)
Lemma invoke_usecase_status
    (c : collaborators) (i : invocation) (w : world)
    (blob_id : string) (s : RecognitionStatus) :
  status_of w blob_id = Some (value s) →
  status_of (invoke_usecase c i w) blob_id
  = Some (value (default s (written_status c i w blob_id))).
Proof.
  intros Hs.
  destruct i as [b url|b|b|b|b raw|b labels|b labels|b|b]; simpl.
  - unfold InitializeUploadListening, bind, _validate_callback_url.
    destruct (UrlValidator.is_valid_url c None url); simpl.
    + unfold status_of. simpl. case_decide as Hb.
      * subst b. by rewrite lookup_insert_eq.
      * rewrite lookup_insert_ne by done. exact Hs.
    + by case_decide.
  - unfold CheckUploading, bind, blob_s3_client.is_uploaded. simpl.
    destruct (s3_is_uploaded c b); simpl; [by case_decide | written Hs].
  - unfold StartRecognition, bind. simpl. written Hs.
  - rewrite GetLabels_world.
    destruct (rekognition_detect_labels c b); simpl;
      [by case_decide | written Hs | written Hs].
  - unfold TransformLabels, bind, lift. by destruct (_transform raw).
  - change (status_of (snd (blob_dynamodb_client.save_labels b labels w)) blob_id
            = Some (value s)).
    rewrite save_labels_keeps_status. by rewrite Hs.
  - destruct (decide (b = blob_id)) as [->|Hne].
    + pose proof Hs as Hitem. unfold status_of in Hitem.
      destruct (table w !! blob_id) as [item|] eqn:Hlookup; [|discriminate].
      rewrite (InvokeCallback_world c w blob_id labels item Hlookup).
      destruct (callback_status _) as [s'|]; simpl.
      * apply update_status_writes.
      * exact Hs.
    + simpl. destruct (table w !! b) as [item|] eqn:Hlookup.
      * rewrite (InvokeCallback_world c w b labels item Hlookup).
        destruct (callback_status _) as [s'|]; [|exact Hs].
        rewrite update_status_other by done. exact Hs.
      * rewrite (InvokeCallback_unknown c w b labels Hlookup). exact Hs.
  - unfold HandleUnexpectedError. simpl. written Hs.
  - rewrite GetRecognitionResult_world. exact Hs.
Qed.

(** C6, as the code has it. A use-case never reads the status before it
    writes one: on a record whose status is [s], the status after an
    invocation is the one [written_status] gives for the invocation
    (WAITING_FOR_UPLOAD for a registration of that id with a valid url,
    UPLOAD_TIMED_OUT for the watchdog on that id when the upload is
    absent, IN_PROGRESS for the recognition trigger on that id,
    INVALID_BLOB_HAS_BEEN_UPLOADED or TOO_LARGE_BLOB_HAS_BEEN_UPLOADED
    for the label extractor on that id on the matching recognition
    failure, the callback status of the outcome for the dispatcher on
    that id, UNEXPECTED_ERROR for the unexpected-error handler on that
    id), whatever [s] is, and [s] itself when the invocation writes
    none (another blob id, [TransformLabels], [SaveLabels],
    [GetRecognitionResult]).  When the step is invoked on a record in
    the state the state machine draws that step from, the status
    therefore stays where it is or moves along an edge of the state
    machine. *)
Theorem designed_steps_follow_edges
    (c : collaborators) (i : invocation) (w : world)
    (blob_id : string) (s : RecognitionStatus) :
  status_of w blob_id = Some (value s) →
  let s' := default s (written_status c i w blob_id) in
  status_of (invoke_usecase c i w) blob_id = Some (value s')
  ∧ (designed_source i blob_id s → s' = s ∨ edge s s' = true).
Proof.
  intros Hs s'. split; [by apply invoke_usecase_status|].
  intros Hsrc. subst s'.
  destruct (written_status c i w blob_id) as [t|] eqn:Hw; simpl; [|by left].
  right.
  destruct i as [b url|b|b|b|b raw|b labels|b labels|b|b];
    simpl in Hsrc, Hw; try discriminate Hw;
    case_decide as Hb; try discriminate Hw; try contradiction;
    rewrite (Hsrc Hb).
  - destruct (s3_is_uploaded c b); [discriminate Hw | by injection Hw as <-].
  - by injection Hw as <-.
  - destruct (rekognition_detect_labels c b);
      [discriminate Hw | by injection Hw as <-..].
  - destruct (table w !! b); [|discriminate Hw].
    by apply (edge_callback_status _ _ Hw).
  - by injection Hw as <-.
Qed.

Lemma designed_steps_follow_edges_witness :
  status_of
    (invoke_usecase (sample_collaborators true (Detected PNone) RaisedConnectionError)
       (CallInvokeCallback "blob-1" sample_labels) (sample_world IN_PROGRESS))
    "blob-1" = Some (value FAILED_DUE_TO_CALLBACK_CONNECTION)
  ∧ edge IN_PROGRESS FAILED_DUE_TO_CALLBACK_CONNECTION = true.
Proof.
  destruct (designed_steps_follow_edges
              (sample_collaborators true (Detected PNone) RaisedConnectionError)
              (CallInvokeCallback "blob-1" sample_labels) (sample_world IN_PROGRESS)
              "blob-1" IN_PROGRESS eq_refl)
    as [Hstatus Hedge].
  split; [exact Hstatus|].
  destruct Hedge as [Heq | Hedge].
  - simpl. intros _. reflexivity.
  - discriminate Heq.
  - exact Hedge.
Defined.

(** C6, as stated, fails.  After scenario C the status of the blob is
    TOO_LARGE_BLOB_HAS_BEEN_UPLOADED, a terminal state, and the step has
    raised; the failure path of the orchestrator then runs
    [HandleUnexpectedError], which writes UNEXPECTED_ERROR without
    looking at the status. *)
Lemma status_only_moves_along_edges_fails : ¬ status_only_moves_along_edges.
Proof.
  intros H.
  assert (Hbefore : status_of (orchestrate scenario_C empty_world) "blob-1"
                    = Some (value TOO_LARGE_BLOB_HAS_BEEN_UPLOADED))
    by (vm_compute; reflexivity).
  assert (Hafter :
    status_of (invoke_usecase
                 (sample_collaborators true (Detected PNone) (Response 204))
                 (CallHandleUnexpectedError "blob-1")
                 (orchestrate scenario_C empty_world)) "blob-1"
    = Some (value UNEXPECTED_ERROR)) by (vm_compute; reflexivity).
  destruct (H scenario_C _ _ "blob-1" TOO_LARGE_BLOB_HAS_BEEN_UPLOADED
              UNEXPECTED_ERROR Hbefore Hafter)
    as [Heq | Hedge]; discriminate.
Qed.

(** A repeated notification of the upload does the same to a blob whose
    labels were delivered: [StartRecognition] takes it from SUCCESS
    back to IN_PROGRESS. *)
Example StartRecognition_after_scenario_B :
  status_of (orchestrate scenario_B empty_world) "blob-1" = Some (value SUCCESS)
  ∧ status_of (orchestrate (scenario_B ++
                 [(sample_collaborators true (Detected PNone) (Response 204),
                   CallStartRecognition "blob-1")]) empty_world) "blob-1"
    = Some (value IN_PROGRESS).
Proof. split; vm_compute; reflexivity. Qed.

(** ** End-to-end scenarios of the specification *)

(** Scenario A: registration, then the watchdog before any upload, then
    the result reader. *)
Example scenario_A_times_out :
  let c := sample_collaborators false (Detected PNone) (Response 204) in
  let w1 := invoke_usecase c
              (CallInitializeUploadListening "blob-1" "https://example.com/cb")
              empty_world in
  let w2 := invoke_usecase c (CallCheckUploading "blob-1") w1 in
  status_of w1 "blob-1" = Some (value WAITING_FOR_UPLOAD)
  ∧ status_of w2 "blob-1" = Some (value UPLOAD_TIMED_OUT)
  ∧ fst (GetRecognitionResult "blob-1" w2)
    = Raise (Recognition BlobUploadTimedOut "Blob upload is timed out."
               [("blob_id", PStr "blob-1"); ("status", value UPLOAD_TIMED_OUT)]).
Proof. repeat split; vm_compute; reflexivity. Qed.

(** Scenario B: the labels are normalized, stored, delivered with HTTP
    204, and read back. *)
Example scenario_B_succeeds :
  let w := orchestrate scenario_B empty_world in
  fst (TransformLabels "blob-1" cat_raw_labels_data empty_world)
    = Ok {| rsf_blob_id := "blob-1"; rsf_labels := sample_labels |}
  ∧ status_of w "blob-1" = Some (value SUCCESS)
  ∧ fst (GetRecognitionResult "blob-1" w)
    = Ok {| brr_blob_id := "blob-1"; brr_labels := sample_labels |}.
Proof. repeat split; vm_compute; reflexivity. Qed.

(** Scenario C: an oversized upload. *)
Example scenario_C_too_large :
  let w := orchestrate scenario_C empty_world in
  status_of w "blob-1" = Some (value TOO_LARGE_BLOB_HAS_BEEN_UPLOADED)
  ∧ fst (GetRecognitionResult "blob-1" w)
    = Raise (Recognition TooLargeBlobHasBeenUploaded
               "Too large image has been uploaded."
               [("blob_id", PStr "blob-1");
                ("status", value TOO_LARGE_BLOB_HAS_BEEN_UPLOADED)]).
Proof. split; vm_compute; reflexivity. Qed.

(** Scenario D: the connection to the callback times out. *)
Example scenario_D_callback_times_out :
  let c := sample_collaborators true (Detected PNone) RaisedConnectTimeout in
  InvokeCallback c "blob-1" sample_labels (sample_world IN_PROGRESS)
  = (Ok {| rsf_blob_id := "blob-1"; rsf_labels := sample_labels |},
     snd (InvokeCallback c "blob-1" sample_labels (sample_world IN_PROGRESS)))
  ∧ status_of (snd (InvokeCallback c "blob-1" sample_labels (sample_world IN_PROGRESS)))
      "blob-1"
    = Some (value FAILED_DUE_TO_CALLBACK_TIME_OUT).
Proof. split; vm_compute; reflexivity. Qed.

(** ** The Label Normalizer *)

Lemma comprehension_map {A B : Type} (f : A → res B) (g : A → B) (xs : list A) :
  Forall (λ x, f x = Ok (g x)) xs → comprehension f xs = Ok (map g xs).
Proof.
  induction 1 as [|x xs Hx _ IH]; simpl; [done|]. by rewrite Hx, IH.
Qed.

Lemma forallb_Forall_true {A : Type} (f : A → bool) (xs : list A) :
  forallb f xs = true → Forall (λ x, f x = true) xs.
Proof.
  induction xs as [|x xs IH]; simpl; [constructor|].
  intros H. apply andb_prop in H as [Hx Hxs]. constructor; [exact Hx | by apply IH].
Qed.

Lemma transform_parents_raw_label (d : pydict) :
  is_raw_label (PDict d) = true →
  transform_parents (PDict d) = Ok (parent_names d).
Proof.
  unfold is_raw_label, transform_parents, parent_names, py_get, dict_get.
  destruct (dict_lookup "Parents" d) as [[| | | | |ps|]|]; try discriminate.
  - intros Hps. simpl. apply comprehension_map.
    apply forallb_Forall_true in Hps. eapply Forall_impl; [exact Hps|].
    intros [| | | | | |pd]; simpl; intros Hp; by try discriminate Hp.
  - reflexivity.
Qed.

Lemma transform_label_raw_label (label : pyval) :
  is_raw_label label = true → transform_label label = Ok (canonical_label label).
Proof.
  destruct label as [| | | | | |d]; try discriminate.
  intros Hl. unfold transform_label.
  rewrite (transform_parents_raw_label d Hl). reflexivity.
Qed.

Lemma _transform_raw_labels (d : pydict) (ls : list pyval) :
  dict_lookup "Labels" d = Some (PList ls) →
  forallb is_raw_label ls = true →
  _transform (PDict d) = Ok (PList (map canonical_label ls)).
Proof.
  intros Hd Hls. unfold _transform, py_get, dict_get. rewrite Hd. simpl.
  rewrite (comprehension_map transform_label canonical_label); [done|].
  apply forallb_Forall_true in Hls. eapply Forall_impl; [exact Hls|].
  intros label Hl. by apply transform_label_raw_label.
Qed.

(** C8. [TransformLabels] touches neither the table nor any
    collaborator, and on a raw payload whose N detected labels are
    [ls] it returns N entries in the same order: the entry at a
    position is the dict [{label, confidence, parents}] made from the
    label at that position, a missing [Name] or [Confidence] giving the
    empty string, and a label without parents (no [Parents] key, or an
    empty list) giving [parents = []]. *)
Theorem TransformLabels_structure_preserving
    (w : world) (blob_id : string) (d : pydict) (ls : list pyval) :
  dict_lookup "Labels" d = Some (PList ls) →
  forallb is_raw_label ls = true →
  ∃ out : list pyval,
    TransformLabels blob_id (PDict d) w
      = (Ok {| rsf_blob_id := blob_id; rsf_labels := PList out |}, w)
    ∧ length out = length ls
    ∧ ∀ (n : nat) (label : pyval),
        ls !! n = Some label →
        ∃ ld : pydict,
          label = PDict ld
          ∧ out !! n = Some (PDict [("label", dict_get ld "Name" (PStr ""));
                                    ("confidence", dict_get ld "Confidence" (PStr ""));
                                    ("parents", PList (parent_names ld))])
          ∧ (dict_lookup "Name" ld = None → dict_get ld "Name" (PStr "") = PStr "")
          ∧ (dict_lookup "Confidence" ld = None →
             dict_get ld "Confidence" (PStr "") = PStr "")
          ∧ (dict_lookup "Parents" ld = None
             ∨ dict_lookup "Parents" ld = Some (PList []) →
             parent_names ld = []).
Proof.
  intros Hd Hls. exists (map canonical_label ls). split; [|split].
  - unfold TransformLabels, bind, lift, ret.
    by rewrite (_transform_raw_labels d ls Hd Hls).
  - apply length_map.
  - intros n label Hn.
    assert (Hl : is_raw_label label = true).
    { apply forallb_Forall_true in Hls. rewrite Forall_lookup in Hls.
      by apply (Hls n). }
    destruct label as [| | | | | |ld]; try discriminate.
    exists ld. split; [done|]. split; [|repeat split].
    + rewrite list_lookup_fmap, Hn. reflexivity.
    + unfold dict_get. by intros ->.
    + unfold dict_get. by intros ->.
    + unfold parent_names. by intros [-> | ->].
Qed.

Lemma TransformLabels_structure_preserving_witness :
  ∃ out : list pyval,
    TransformLabels "blob-1" sample_raw_labels_data empty_world
      = (Ok {| rsf_blob_id := "blob-1"; rsf_labels := PList out |}, empty_world)
    ∧ length out = 3%nat.
Proof.
  destruct (TransformLabels_structure_preserving empty_world "blob-1"
              [("Labels",
                PList [PDict [("Name", PStr "Cat");
                              ("Confidence", PFloat (981 # 10));
                              ("Parents", PList [PDict [("Name", PStr "Animal")]])];
                       PDict [("Name", PStr "Animal");
                              ("Confidence", PFloat (995 # 10));
                              ("Parents", PList [])];
                       PDict [("Confidence", PFloat (60 # 1))]]);
               ("LabelModelVersion", PStr "2.0")]
              _ eq_refl eq_refl)
    as (out & Hrun & Hlen & _).
  exists out. split; [exact Hrun | exact Hlen].
Defined.

(** The payload of scenario B gives the labels the specification
    expects. *)
Example TransformLabels_scenario_B : _transform cat_raw_labels_data = Ok sample_labels.
Proof. reflexivity. Qed.

Lemma comprehension_domain {B : Type} (f : pyval → res B) (p : pyval → bool) :
  (∀ x, if p x then ∃ y, f x = Ok y else ∃ cls, f x = Raise (Builtin cls)) →
  ∀ xs : list pyval,
    if forallb p xs then ∃ ys, comprehension f xs = Ok ys
    else ∃ cls, comprehension f xs = Raise (Builtin cls).
Proof.
  intros Hf xs. induction xs as [|x xs IH]; simpl; [eauto|].
  specialize (Hf x). destruct (p x); simpl.
  - destruct Hf as [y ->].
    destruct (forallb p xs); destruct IH as [r ->]; eauto.
  - destruct Hf as [cls ->]. eauto.
Qed.

Lemma iterate_domain {B : Type} (f : pyval → res B) (p : pyval → bool) (v : pyval) :
  (∀ x, if p x then ∃ y, f x = Ok y else ∃ cls, f x = Raise (Builtin cls)) →
  (∀ s, p (PStr s) = false) →
  if yields_only p v
  then ∃ ys, match py_iter v with
             | Raise e => Raise e
             | Ok xs => comprehension f xs
             end = Ok ys
  else ∃ cls, match py_iter v with
              | Raise e => Raise e
              | Ok xs => comprehension f xs
              end = Raise (Builtin cls).
Proof.
  intros Hf Hstr.
  destruct v as [| | | |s|items|entries]; simpl; eauto.
  - destruct s as [|ch s]; simpl; [eauto|].
    pose proof (Hf (PStr (String ch EmptyString))) as H.
    rewrite Hstr in H. destruct H as [cls ->]. eauto.
  - apply comprehension_domain. exact Hf.
  - destruct entries as [|[k x] entries]; simpl; [eauto|].
    pose proof (Hf (PStr k)) as H.
    rewrite Hstr in H. destruct H as [cls ->]. eauto.
Qed.

Lemma parent_name_domain (parent : pyval) :
  if is_dict parent then ∃ y, py_get parent "Name" (PStr "") = Ok y
  else ∃ cls, py_get parent "Name" (PStr "") = Raise (Builtin cls).
Proof. destruct parent; simpl; eauto. Qed.

Lemma transform_label_domain (label : pyval) :
  if transformable_label label then ∃ y, transform_label label = Ok y
  else ∃ cls, transform_label label = Raise (Builtin cls).
Proof.
  destruct label as [| | | | | |d]; simpl; eauto.
  unfold transform_label, transform_parents. simpl.
  pose proof (iterate_domain (λ parent, py_get parent "Name" (PStr "")) is_dict
                (dict_get d "Parents" (PDict [])) parent_name_domain
                (λ _, eq_refl)) as H.
  destruct (yields_only is_dict _); destruct H as [r ->]; eauto.
Qed.

Lemma _transform_domain (raw : pyval) :
  if transformable raw then ∃ out, _transform raw = Ok (PList out)
  else ∃ cls, _transform raw = Raise (Builtin cls).
Proof.
  destruct raw as [| | | | | |d]; simpl; eauto.
  unfold _transform. simpl.
  pose proof (iterate_domain transform_label transformable_label
                (dict_get d "Labels" PNone) transform_label_domain
                (λ _, eq_refl)) as H.
  destruct (yields_only transformable_label _).
  - destruct H as [out H]. exists out.
    destruct (py_iter _); [by rewrite H | discriminate].
  - destruct H as [cls H]. exists cls.
    destruct (py_iter _); [by rewrite H | by injection H as ->].
Qed.

(** C10, as the code has it. [TransformLabels] returns a result
    exactly on the payloads in the domain [transformable]: a dict whose
    ['Labels'] yields only label dicts when it is iterated, a label
    dict being one whose [Parents], when present, yields only dicts (a
    list of dicts does; so do an empty dict and an empty str, which
    yield nothing).  For a payload without the ['Labels'] key, or with
    ['Labels'] bound to [None], it raises [TypeError] (the [None] it
    fetched is iterated) and returns nothing; a payload that is not a
    dict has no [get] and raises [AttributeError]; every payload
    outside the domain raises one of the two.  When ['Labels'] is
    bound to a list of detected labels, each a dict whose [Parents],
    if present, is a list of dicts, the transformation succeeds. *)
Theorem TransformLabels_needs_labels (w : world) (blob_id : string) (raw : pyval) :
  (is_dict raw = false →
   TransformLabels blob_id raw w = (Raise (Builtin AttributeError), w))
  ∧ (∀ d : pydict,
       raw = PDict d →
       dict_lookup "Labels" d = None ∨ dict_lookup "Labels" d = Some PNone →
       TransformLabels blob_id raw w = (Raise (Builtin TypeError), w))
  ∧ (∀ (d : pydict) (ls : list pyval),
       raw = PDict d →
       dict_lookup "Labels" d = Some (PList ls) →
       forallb is_raw_label ls = true →
       ∃ out : list pyval,
         TransformLabels blob_id raw w
           = (Ok {| rsf_blob_id := blob_id; rsf_labels := PList out |}, w))
  ∧ ((∃ out : list pyval,
        TransformLabels blob_id raw w
          = (Ok {| rsf_blob_id := blob_id; rsf_labels := PList out |}, w))
     ↔ transformable raw = true)
  ∧ (transformable raw = false →
     ∃ cls : builtin_error,
       TransformLabels blob_id raw w = (Raise (Builtin cls), w)).
Proof.
  split; [|split; [|split]].
  - intros Hraw. destruct raw; try discriminate; reflexivity.
  - intros d -> Hd.
    unfold TransformLabels, bind, lift, _transform, py_get, dict_get.
    by destruct Hd as [-> | ->].
  - intros d ls -> Hd Hls. exists (map canonical_label ls).
    unfold TransformLabels, bind, lift, ret.
    by rewrite (_transform_raw_labels d ls Hd Hls).
  - pose proof (_transform_domain raw) as H.
    unfold TransformLabels, bind, lift, ret.
    destruct (transformable raw).
    + destruct H as [out ->]. split; [|discriminate].
      split; [done | intros _; by exists out].
    + destruct H as [cls ->]. split; [|intros _; by exists cls].
      split; [intros [out Hout]; discriminate Hout | discriminate].
Qed.

Lemma TransformLabels_needs_labels_witness :
  TransformLabels "blob-1" (PDict [("LabelModelVersion", PStr "2.0")]) empty_world
    = (Raise (Builtin TypeError), empty_world)
  ∧ TransformLabels "blob-1" (PList []) empty_world
    = (Raise (Builtin AttributeError), empty_world)
  ∧ (∃ out : list pyval,
       TransformLabels "blob-1" sample_raw_labels_data empty_world
         = (Ok {| rsf_blob_id := "blob-1"; rsf_labels := PList out |}, empty_world))
  ∧ (∃ out : list pyval,
       TransformLabels "blob-1" (PDict [("Labels", PDict [])]) empty_world
         = (Ok {| rsf_blob_id := "blob-1"; rsf_labels := PList out |}, empty_world))
  ∧ ∃ cls : builtin_error,
      TransformLabels "blob-1" (PDict [("Labels", PInt 5)]) empty_world
        = (Raise (Builtin cls), empty_world).
Proof.
  split; [|split; [|split; [|split]]].
  - apply (proj1 (proj2 (TransformLabels_needs_labels empty_world "blob-1"
                           (PDict [("LabelModelVersion", PStr "2.0")])))
             [("LabelModelVersion", PStr "2.0")] eq_refl).
    left. reflexivity.
  - apply (proj1 (TransformLabels_needs_labels empty_world "blob-1" (PList []))).
    reflexivity.
  - eapply (proj1 (proj2 (proj2 (TransformLabels_needs_labels empty_world "blob-1"
                                   sample_raw_labels_data)))); reflexivity.
  - apply (proj1 (proj2 (proj2 (proj2
             (TransformLabels_needs_labels empty_world "blob-1"
                (PDict [("Labels", PDict [])])))))).
    reflexivity.
  - apply (proj2 (proj2 (proj2 (proj2
             (TransformLabels_needs_labels empty_world "blob-1"
                (PDict [("Labels", PInt 5)])))))).
    reflexivity.
Defined.

(** C10, as stated, fails: with ['Labels'] bound to the list
    [['Cat']], a sequence, the comprehension calls [get] on a [str]
    and raises [AttributeError]. *)
Lemma transform_succeeds_on_any_sequence_fails :
  ¬ transform_succeeds_on_any_sequence.
Proof.
  intros H.
  destruct (H "blob-1" [("Labels", PList [PStr "Cat"])] [PStr "Cat"] empty_world eq_refl)
    as [r Hr].
  discriminate Hr.
Qed.

(** ** What the use-cases write, and what they leave alone *)

Lemma attribute_of_set
    (b blob_id a k : string) (v : pyval) (t : gmap string pydict) (tr : list event) :
  attribute_of
    (World (<[b := dict_set a v (blob_dynamodb_client.item_of t b)]> t) tr) blob_id k
  = if decide (b = blob_id ∧ a = k) then Some v
    else attribute_of (World t []) blob_id k.
Proof.
  unfold attribute_of, blob_dynamodb_client.item_of. simpl.
  destruct (decide (b = blob_id)) as [->|Hb].
  - rewrite lookup_insert_eq.
    destruct (decide (a = k)) as [->|Ha].
    + rewrite decide_True by done. apply dict_lookup_set_eq.
    + rewrite decide_False by (intros [_ ?]; done).
      rewrite dict_lookup_set_ne by done.
      by destruct (t !! blob_id).
  - rewrite decide_False by (intros [? _]; done).
    by rewrite lookup_insert_ne.
Qed.

Lemma attribute_of_table (w : world) (tr : list event) (blob_id k : string) :
  attribute_of (World (table w) tr) blob_id k = attribute_of w blob_id k.
Proof. reflexivity. Qed.

Ltac attribute_kept H :=
  unfold log, with_table; simpl;
  rewrite ?attribute_of_set, ?attribute_of_table;
  try (rewrite decide_False; [reflexivity | intros [? ?]; apply H; by subst]);
  try reflexivity.

(** The table after one invocation: as before, or with one item put. *)
Lemma invoke_usecase_table (c : collaborators) (i : invocation) (w : world) :
  table (invoke_usecase c i w) = table w
  ∨ ∃ (b : string) (item : pydict), table (invoke_usecase c i w) = <[b := item]> (table w).
Proof.
  destruct i as [b url|b|b|b|b raw|b labels|b labels|b|b]; simpl.
  - unfold InitializeUploadListening, bind, _validate_callback_url.
    destruct (negb _); simpl; [by left | right; eauto].
  - unfold CheckUploading, bind, blob_s3_client.is_uploaded. simpl.
    destruct (s3_is_uploaded c b); simpl; [by left | right; eauto].
  - right. unfold StartRecognition, bind. simpl. eauto.
  - rewrite GetLabels_world.
    destruct (rekognition_detect_labels c b); simpl; [by left | right; eauto..].
  - left. unfold TransformLabels, bind, lift. by destruct (_transform raw).
  - right. unfold SaveLabels, bind. simpl. eauto.
  - destruct (table w !! b) as [item|] eqn:Hitem.
    + rewrite (InvokeCallback_world c w b labels item Hitem).
      destruct (callback_status _); simpl; [right; eauto | by left].
    + left. by rewrite (InvokeCallback_unknown c w b labels Hitem).
  - right. unfold HandleUnexpectedError. simpl. eauto.
  - left. by rewrite GetRecognitionResult_world.
Qed.

(** One invocation changes no attribute other than those it is there
    to write. *)
Lemma invoke_usecase_keeps_attribute
    (c : collaborators) (i : invocation) (w : world) (blob_id k : string) :
  ¬ may_write i blob_id k →
  attribute_of (invoke_usecase c i w) blob_id k = attribute_of w blob_id k.
Proof.
  intros H.
  destruct i as [b url|b|b|b|b raw|b labels|b labels|b|b]; simpl in H |- *.
  - unfold InitializeUploadListening, bind, _validate_callback_url.
    destruct (negb _); simpl; [reflexivity|].
    unfold attribute_of. simpl. by rewrite lookup_insert_ne.
  - unfold CheckUploading, bind, blob_s3_client.is_uploaded. simpl.
    destruct (s3_is_uploaded c b); simpl; [reflexivity|]. attribute_kept H.
  - unfold StartRecognition, bind. simpl. attribute_kept H.
  - rewrite GetLabels_world.
    destruct (rekognition_detect_labels c b); simpl; [reflexivity| |]; attribute_kept H.
  - unfold TransformLabels, bind, lift. by destruct (_transform raw).
  - unfold SaveLabels, bind. simpl. attribute_kept H.
  - destruct (table w !! b) as [item|] eqn:Hitem.
    + rewrite (InvokeCallback_world c w b labels item Hitem).
      destruct (callback_status _); simpl; [attribute_kept H | reflexivity].
    + by rewrite (InvokeCallback_unknown c w b labels Hitem).
  - unfold HandleUnexpectedError. simpl. attribute_kept H.
  - by rewrite GetRecognitionResult_world.
Qed.

(** X1. Frame: a sequence of invocations changes no attribute of any
    item other than those its invocations are there to write.  In
    particular the callback url of a blob is only ever written by its
    registration, the labels only by the registration and
    [SaveLabels], the status never by [SaveLabels], [TransformLabels]
    or [GetRecognitionResult], and invocations for one blob id leave
    the items of the others alone. *)
Theorem orchestrate_frame
    (steps : list (collaborators * invocation)) (w : world) (blob_id k : string) :
  Forall (λ ci, ¬ may_write (snd ci) blob_id k) steps →
  attribute_of (orchestrate steps w) blob_id k = attribute_of w blob_id k.
Proof.
  intros Hsteps. revert w.
  induction Hsteps as [|[c i] steps Hi _ IH]; intros w; simpl; [reflexivity|].
  rewrite IH. by apply invoke_usecase_keeps_attribute.
Qed.

Lemma orchestrate_frame_witness :
  attribute_of
    (orchestrate
       [(sample_collaborators false (Detected PNone) (Response 204),
         CallCheckUploading "blob-1");
        (sample_collaborators false (Detected PNone) (Response 204),
         CallSaveLabels "blob-2" sample_labels)]
       (sample_world WAITING_FOR_UPLOAD))
    "blob-1" "labels"
  = Some sample_labels.
Proof.
  rewrite (orchestrate_frame _ (sample_world WAITING_FOR_UPLOAD) "blob-1" "labels").
  - reflexivity.
  - repeat constructor; simpl; intros [H1 H2]; discriminate.
Defined.

(** X2. No sequence of invocations ever deletes an item: a blob that
    has an item keeps one, whatever runs afterwards. *)
Theorem orchestrate_keeps_items
    (steps : list (collaborators * invocation)) (w : world) (blob_id : string) :
  is_Some (table w !! blob_id) →
  is_Some (table (orchestrate steps w) !! blob_id).
Proof.
  revert w. induction steps as [|[c i] steps IH]; intros w Hw; simpl; [exact Hw|].
  apply IH.
  destruct (invoke_usecase_table c i w) as [-> | (b & item & ->)]; [exact Hw|].
  destruct (decide (b = blob_id)) as [->|Hne].
  - rewrite lookup_insert_eq. eauto.
  - by rewrite lookup_insert_ne.
Qed.

Lemma orchestrate_keeps_items_witness :
  is_Some (table (orchestrate scenario_C (sample_world SUCCESS)) !! "blob-1").
Proof.
  apply (orchestrate_keeps_items scenario_C (sample_world SUCCESS) "blob-1").
  eexists. reflexivity.
Defined.

(** ** The callback url *)

Lemma orchestrate_keeps_callback_url
    (steps : list (collaborators * invocation)) (w : world) (blob_id : string) :
  Forall (not_registration_of blob_id) steps →
  attribute_of (orchestrate steps w) blob_id "callback_url"
  = attribute_of w blob_id "callback_url".
Proof.
  intros Hsteps. revert w.
  induction Hsteps as [|[c i] steps Hi _ IH]; intros w; simpl; [reflexivity|].
  rewrite IH. apply invoke_usecase_keeps_attribute.
  unfold not_registration_of in Hi. simpl in Hi.
  destruct i; simpl;
    first [ exact Hi | intros [_ Hk]; discriminate Hk | intros [] ].
Qed.

Lemma InitializeUploadListening_world
    (c : collaborators) (w : world) (blob_id callback_url : string) :
  UrlValidator.is_valid_url c None callback_url = true →
  InitializeUploadListening c blob_id callback_url w
  = (Ok {| uir_blob_id := blob_id;
           uir_upload_url := s3_generate_presigned_url c blob_id;
           uir_callback_url := callback_url |},
     World (<[blob_id := [("callback_url", PStr callback_url);
                          ("status", value WAITING_FOR_UPLOAD)]]> (table w))
       (trace w ++ [DbCreate blob_id callback_url (value WAITING_FOR_UPLOAD);
                    UploadingStepFunctionLaunch blob_id;
                    S3GeneratePresignedUrl blob_id])).
Proof.
  intros Hvalid.
  unfold InitializeUploadListening, bind, _validate_callback_url.
  rewrite Hvalid. simpl. unfold log, with_table. simpl.
  by rewrite <- !app_assoc.
Qed.

(** X3. The callback goes to the url given at registration.  After a
    registration with a valid url, and whatever invocations run next
    (short of registering the same blob id again), [InvokeCallback]
    for the blob makes one HTTP call, to that url, with the body
    [{blob_id, labels}] of the labels it is given.  When the call
    returns a response or raises [ConnectTimeout] or
    [ConnectionError], the use-case writes the status of that outcome
    and returns; when the call raises another exception, the exception
    leaves the use-case and nothing is written after the call. *)
Theorem InvokeCallback_posts_to_registered_url
    (c0 c : collaborators) (w : world) (blob_id callback_url : string)
    (steps : list (collaborators * invocation)) (labels : pyval) :
  UrlValidator.is_valid_url c0 None callback_url = true →
  Forall (not_registration_of blob_id) steps →
  let registered := snd (InitializeUploadListening c0 blob_id callback_url w) in
  let before := orchestrate steps registered in
  let body := as_dict {| brr_blob_id := blob_id; brr_labels := labels |} in
  let sent := log (HttpInvoke (PStr callback_url) body)
                (log (DbGetBlob blob_id) before) in
  trace sent = trace before ++ [DbGetBlob blob_id; HttpInvoke (PStr callback_url) body]
  ∧ match callback_status (http_invoke c (PStr callback_url) body) with
    | Some s =>
        InvokeCallback c blob_id labels before
        = (Ok {| rsf_blob_id := blob_id; rsf_labels := labels |},
           snd (blob_dynamodb_client.update_status blob_id (value s) sent))
    | None =>
        ∃ e : exn,
          http_invoke c (PStr callback_url) body = RaisedOther e
          ∧ InvokeCallback c blob_id labels before = (Raise e, sent)
    end.
Proof.
  intros Hvalid Hsteps registered before body sent.
  split; [subst sent; simpl; by rewrite <- !app_assoc|].
  assert (Hurl : attribute_of before blob_id "callback_url" = Some (PStr callback_url)).
  { subst before. rewrite orchestrate_keeps_callback_url by exact Hsteps.
    subst registered. rewrite (InitializeUploadListening_world _ _ _ _ Hvalid).
    unfold attribute_of. simpl. rewrite lookup_insert_eq. reflexivity. }
  unfold attribute_of in Hurl.
  destruct (table before !! blob_id) as [item|] eqn:Hitem; [|discriminate].
  assert (Hget : dict_get item "callback_url" PNone = PStr callback_url)
    by (unfold dict_get; by rewrite Hurl).
  destruct (callback_status _) as [s|] eqn:Hs.
  - rewrite (InvokeCallback_run c before blob_id labels item s Hitem);
      rewrite Hget; [reflexivity | exact Hs].
  - destruct (http_invoke c (PStr callback_url) body) as [code| | |e] eqn:He;
      try discriminate Hs.
    exists e. split; [reflexivity|].
    rewrite (InvokeCallback_run_uncaught c before blob_id labels item e Hitem);
      rewrite Hget; [reflexivity | exact He].
Qed.

Lemma InvokeCallback_posts_to_registered_url_witness :
  InvokeCallback
    (sample_collaborators true (Detected PNone) (Response 500))
    "blob-9" sample_labels
    (orchestrate
       [(sample_collaborators true (Detected PNone) (Response 500),
         CallStartRecognition "blob-9")]
       (snd (InitializeUploadListening
               (sample_collaborators true (Detected PNone) (Response 500))
               "blob-9" "http://cb.example.org/done" empty_world)))
  = (Ok {| rsf_blob_id := "blob-9"; rsf_labels := sample_labels |},
     snd (blob_dynamodb_client.update_status "blob-9"
            (value FAILED_DUE_TO_CALLBACK_FAILURE)
            (log (HttpInvoke (PStr "http://cb.example.org/done")
                    (as_dict {| brr_blob_id := "blob-9"; brr_labels := sample_labels |}))
               (log (DbGetBlob "blob-9")
                  (orchestrate
                     [(sample_collaborators true (Detected PNone) (Response 500),
                       CallStartRecognition "blob-9")]
                     (snd (InitializeUploadListening
                             (sample_collaborators true (Detected PNone) (Response 500))
                             "blob-9" "http://cb.example.org/done" empty_world))))))).
Proof.
  exact (proj2 (InvokeCallback_posts_to_registered_url
                  (sample_collaborators true (Detected PNone) (Response 500))
                  (sample_collaborators true (Detected PNone) (Response 500))
                  empty_world "blob-9" "http://cb.example.org/done"
                  [(sample_collaborators true (Detected PNone) (Response 500),
                    CallStartRecognition "blob-9")]
                  sample_labels eq_refl
                  ltac:(repeat constructor))).
Defined.

(** ** The result reader after a writer *)

Lemma GetRecognitionResult_by_status
    (w : world) (blob_id : string) (s : RecognitionStatus) (cls : recognition_error) :
  status_of w blob_id = Some (value s) →
  reader_failure s = Some cls →
  fst (GetRecognitionResult blob_id w) = reader_raises blob_id s cls.
Proof.
  intros Hs Hcls. unfold status_of in Hs.
  unfold GetRecognitionResult, bind, blob_dynamodb_client.get_blob, lift. simpl.
  destruct (table w !! blob_id) as [item|]; [|discriminate]. simpl.
  injection Hs as Hs. rewrite Hs.
  destruct s; simpl in Hcls; try discriminate; injection Hcls as <-; reflexivity.
Qed.

Lemma GetRecognitionResult_reads_labels
    (w : world) (blob_id : string) (item : pydict) (s : RecognitionStatus) :
  table w !! blob_id = Some item →
  dict_get item "status" PNone = value s →
  reader_failure s = None →
  fst (GetRecognitionResult blob_id w)
  = Ok {| brr_blob_id := blob_id; brr_labels := dict_get item "labels" PNone |}.
Proof.
  intros Hitem Hs Hnone.
  unfold GetRecognitionResult, bind, blob_dynamodb_client.get_blob, lift. simpl.
  rewrite Hitem. simpl. rewrite Hs.
  destruct s; simpl in Hnone; try discriminate; reflexivity.
Qed.

(** X4. The result reader reports the last status written.  Whatever
    the table held before: after a registration with a valid url it
    raises [BlobIsNotUploadedYet]; after [CheckUploading] found no
    upload, [BlobUploadTimedOut]; after [StartRecognition],
    [BlobRecognitionIsInProgress]; after [GetLabels] met an invalid
    or a too large blob, [InvalidBlobHasBeenUploaded] or
    [TooLargeBlobHasBeenUploaded], with the reader's own message and
    not the one of the recognition service; after
    [HandleUnexpectedError], [UnexpectedErrorOccurred]. *)
Theorem reader_reports_last_write (c : collaborators) (w : world) (blob_id : string) :
  (∀ callback_url : string,
     UrlValidator.is_valid_url c None callback_url = true →
     fst (GetRecognitionResult blob_id
            (snd (InitializeUploadListening c blob_id callback_url w)))
     = reader_raises blob_id WAITING_FOR_UPLOAD BlobIsNotUploadedYet)
  ∧ (s3_is_uploaded c blob_id = false →
     fst (GetRecognitionResult blob_id (snd (CheckUploading c blob_id w)))
     = reader_raises blob_id UPLOAD_TIMED_OUT BlobUploadTimedOut)
  ∧ fst (GetRecognitionResult blob_id (snd (StartRecognition blob_id w)))
    = reader_raises blob_id IN_PROGRESS BlobRecognitionIsInProgress
  ∧ (∀ message : string,
       rekognition_detect_labels c blob_id = RaisedInvalidBlobHasBeenUploaded message →
       fst (GetRecognitionResult blob_id (snd (GetLabels c blob_id w)))
       = reader_raises blob_id INVALID_BLOB_HAS_BEEN_UPLOADED InvalidBlobHasBeenUploaded)
  ∧ (∀ message : string,
       rekognition_detect_labels c blob_id = RaisedTooLargeBlobHasBeenUploaded message →
       fst (GetRecognitionResult blob_id (snd (GetLabels c blob_id w)))
       = reader_raises blob_id TOO_LARGE_BLOB_HAS_BEEN_UPLOADED
           TooLargeBlobHasBeenUploaded)
  ∧ fst (GetRecognitionResult blob_id (snd (HandleUnexpectedError blob_id w)))
    = reader_raises blob_id UNEXPECTED_ERROR UnexpectedErrorOccurred.
Proof.
  repeat split.
  - intros url Hvalid. apply GetRecognitionResult_by_status; [|reflexivity].
    rewrite (InitializeUploadListening_world _ _ _ _ Hvalid).
    unfold status_of. simpl. by rewrite lookup_insert_eq.
  - intros Hno. apply GetRecognitionResult_by_status; [|reflexivity].
    unfold CheckUploading, bind, blob_s3_client.is_uploaded. simpl. rewrite Hno.
    apply update_status_writes.
  - apply GetRecognitionResult_by_status; [|reflexivity].
    unfold StartRecognition, bind. simpl.
    unfold status_of. simpl. rewrite lookup_insert_eq. by rewrite dict_get_set_eq.
  - intros message Hd. apply GetRecognitionResult_by_status; [|reflexivity].
    rewrite GetLabels_world, Hd. apply update_status_writes.
  - intros message Hd. apply GetRecognitionResult_by_status; [|reflexivity].
    rewrite GetLabels_world, Hd. apply update_status_writes.
  - apply GetRecognitionResult_by_status; [|reflexivity].
    apply update_status_writes.
Qed.

Lemma reader_reports_last_write_witness :
  fst (GetRecognitionResult "blob-1"
         (snd (GetLabels
                 (sample_collaborators true
                    (RaisedInvalidBlobHasBeenUploaded "Request has invalid image format")
                    (Response 204))
                 "blob-1" (sample_world IN_PROGRESS))))
  = Raise (Recognition InvalidBlobHasBeenUploaded
             "Invalid image format has been uploaded."
             [("blob_id", PStr "blob-1");
              ("status", value INVALID_BLOB_HAS_BEEN_UPLOADED)]).
Proof.
  destruct (reader_reports_last_write
              (sample_collaborators true
                 (RaisedInvalidBlobHasBeenUploaded "Request has invalid image format")
                 (Response 204))
              (sample_world IN_PROGRESS) "blob-1")
    as (_ & _ & _ & Hinvalid & _).
  exact (Hinvalid "Request has invalid image format" eq_refl).
Defined.

(** The answer of the result reader depends on the item of the blob
    only. *)
Lemma GetRecognitionResult_depends_on_item (w w' : world) (blob_id : string) :
  table w !! blob_id = table w' !! blob_id →
  fst (GetRecognitionResult blob_id w) = fst (GetRecognitionResult blob_id w').
Proof.
  intros H.
  unfold GetRecognitionResult, bind, blob_dynamodb_client.get_blob, lift, raise, ret.
  simpl. rewrite H. destruct (table w' !! blob_id) as [item|]; simpl; [|done].
  repeat (destruct (is_status _ _); [done|]). done.
Qed.

(** ** The labels *)

Lemma update_status_item (blob_id : string) (v : pyval) (w : world) (item : pydict) :
  table w !! blob_id = Some item →
  table (snd (blob_dynamodb_client.update_status blob_id v w)) !! blob_id
  = Some (dict_set "status" v item).
Proof.
  intros Hitem. unfold blob_dynamodb_client.update_status,
    blob_dynamodb_client.item_of. simpl.
  by rewrite lookup_insert_eq, Hitem.
Qed.

Lemma save_labels_item (blob_id : string) (labels : pyval) (w : world) (item : pydict) :
  table w !! blob_id = Some item →
  table (snd (blob_dynamodb_client.save_labels blob_id labels w)) !! blob_id
  = Some (dict_set "labels" labels item).
Proof.
  intros Hitem. unfold blob_dynamodb_client.save_labels,
    blob_dynamodb_client.item_of. simpl.
  by rewrite lookup_insert_eq, Hitem.
Qed.

Lemma reader_failure_callback_status (o : http_outcome) (s : RecognitionStatus) :
  callback_status o = Some s → reader_failure s = None.
Proof.
  destruct o as [code| | |e]; simpl; intros H; try discriminate H;
    injection H as <-; [destruct (code =? 204)| |]; reflexivity.
Qed.

(** X5. The labels read are the labels saved.  For a blob that has an
    item, once [SaveLabels] has stored some labels and
    [InvokeCallback] has run with whatever labels it was given, the
    item holds the stored labels.  When the HTTP call returned a
    response or raised [ConnectTimeout] or [ConnectionError],
    [GetRecognitionResult] then returns the stored labels; when the
    call raised another exception, no status was written and
    [GetRecognitionResult] answers what it answered before the
    dispatch. *)
Theorem saved_labels_are_read
    (c : collaborators) (w : world) (blob_id : string) (saved sent : pyval)
    (item : pydict) :
  table w !! blob_id = Some item →
  let stored := snd (SaveLabels blob_id saved w) in
  let delivered := snd (InvokeCallback c blob_id sent stored) in
  let outcome := http_invoke c (dict_get item "callback_url" PNone)
                   (as_dict {| brr_blob_id := blob_id; brr_labels := sent |}) in
  fst (SaveLabels blob_id saved w)
    = Ok {| rsf_blob_id := blob_id; rsf_labels := saved |}
  ∧ attribute_of delivered blob_id "labels" = Some saved
  ∧ match callback_status outcome with
    | Some s =>
        fst (GetRecognitionResult blob_id delivered)
        = Ok {| brr_blob_id := blob_id; brr_labels := saved |}
    | None =>
        fst (GetRecognitionResult blob_id delivered)
        = fst (GetRecognitionResult blob_id stored)
    end.
Proof.
  intros Hitem stored delivered outcome. split; [reflexivity|].
  assert (Hstored : table stored !! blob_id = Some (dict_set "labels" saved item)).
  { subst stored. unfold SaveLabels, bind. simpl.
    unfold blob_dynamodb_client.item_of. by rewrite lookup_insert_eq, Hitem. }
  assert (Hurl : dict_get (dict_set "labels" saved item) "callback_url" PNone
                 = dict_get item "callback_url" PNone).
  { unfold dict_get. by rewrite dict_lookup_set_ne by discriminate. }
  subst delivered.
  rewrite (InvokeCallback_world c stored blob_id sent _ Hstored), Hurl.
  fold outcome.
  destruct (callback_status outcome) as [s|] eqn:Hs.
  - assert (Hdelivered :
      table (snd (blob_dynamodb_client.update_status blob_id (value s)
                    (log (HttpInvoke (dict_get item "callback_url" PNone)
                            (as_dict {| brr_blob_id := blob_id; brr_labels := sent |}))
                       (log (DbGetBlob blob_id) stored)))) !! blob_id
      = Some (dict_set "status" (value s) (dict_set "labels" saved item)))
      by (apply update_status_item; exact Hstored).
    split.
    + unfold attribute_of. rewrite Hdelivered.
      rewrite dict_lookup_set_ne by discriminate. apply dict_lookup_set_eq.
    + eapply eq_trans.
      { eapply GetRecognitionResult_reads_labels.
        - exact Hdelivered.
        - by rewrite dict_get_set_eq.
        - by eapply reader_failure_callback_status. }
      unfold dict_get. rewrite dict_lookup_set_ne by discriminate.
      by rewrite dict_lookup_set_eq.
  - split.
    + unfold attribute_of.
      change (table (log _ (log _ stored))) with (table stored).
      rewrite Hstored. apply dict_lookup_set_eq.
    + by apply GetRecognitionResult_depends_on_item.
Qed.

Lemma saved_labels_are_read_witness :
  fst (GetRecognitionResult "blob-1"
         (snd (InvokeCallback
                 (sample_collaborators true (Detected PNone) RaisedConnectionError)
                 "blob-1" PNone
                 (snd (SaveLabels "blob-1" (PList [PStr "kept"])
                         (sample_world IN_PROGRESS))))))
  = Ok {| brr_blob_id := "blob-1"; brr_labels := PList [PStr "kept"] |}.
Proof.
  exact (proj2 (proj2 (saved_labels_are_read
                         (sample_collaborators true (Detected PNone) RaisedConnectionError)
                         (sample_world IN_PROGRESS) "blob-1" (PList [PStr "kept"]) PNone
                         (sample_item IN_PROGRESS) eq_refl))).
Defined.

(** ** The callback dispatcher on its edges *)

(** X6. For a blob without an item [InvokeCallback] raises
    [AttributeError] (the [None] that [get_blob] answered has no
    [get]): it makes no HTTP call, writes no status, and leaves the
    table as it was. *)
Theorem InvokeCallback_unknown_blob
    (c : collaborators) (w : world) (blob_id : string) (labels : pyval) :
  table w !! blob_id = None →
  fst (InvokeCallback c blob_id labels w) = Raise (Builtin AttributeError)
  ∧ trace (snd (InvokeCallback c blob_id labels w)) = trace w ++ [DbGetBlob blob_id]
  ∧ table (snd (InvokeCallback c blob_id labels w)) = table w
  ∧ status_of (snd (InvokeCallback c blob_id labels w)) blob_id = None.
Proof.
  intros Hnone.
  unfold InvokeCallback, bind, blob_dynamodb_client.get_blob, status_of. simpl.
  rewrite Hnone. simpl. by rewrite Hnone.
Qed.

Lemma InvokeCallback_unknown_blob_witness :
  fst (InvokeCallback (sample_collaborators true (Detected PNone) (Response 204))
         "blob-2" sample_labels (sample_world IN_PROGRESS))
  = Raise (Builtin AttributeError).
Proof.
  apply (InvokeCallback_unknown_blob
           (sample_collaborators true (Detected PNone) (Response 204))
           (sample_world IN_PROGRESS) "blob-2" sample_labels).
  reflexivity.
Defined.

(** X7. SUCCESS is recorded for a 204 and for nothing else.  After
    [InvokeCallback] on a blob that has an item, the status is SUCCESS
    exactly when the HTTP call returned a response with status code
    204, or raised an exception the use-case does not catch while the
    status already was SUCCESS (nothing is written then).  A status
    written by the use-case is never one of those the result reader
    turns into a failure. *)
Theorem InvokeCallback_success_iff_204
    (c : collaborators) (w : world) (blob_id : string) (labels : pyval) (item : pydict) :
  table w !! blob_id = Some item →
  let url := dict_get item "callback_url" PNone in
  let body := as_dict {| brr_blob_id := blob_id; brr_labels := labels |} in
  let w' := snd (InvokeCallback c blob_id labels w) in
  (status_of w' blob_id = Some (value SUCCESS)
   ↔ http_invoke c url body = Response 204
     ∨ ((∃ e : exn, http_invoke c url body = RaisedOther e)
        ∧ status_of w blob_id = Some (value SUCCESS)))
  ∧ (∀ written : RecognitionStatus,
       callback_status (http_invoke c url body) = Some written →
       status_of w' blob_id = Some (value written)
       ∧ reader_failure written = None).
Proof.
  intros Hitem url body w'.
  assert (Hst : status_of w' blob_id
                = match callback_status (http_invoke c url body) with
                  | Some s => Some (value s)
                  | None => status_of w blob_id
                  end).
  { subst w'. rewrite (InvokeCallback_world c w blob_id labels item Hitem).
    fold url body. destruct (callback_status _); [apply update_status_writes | done]. }
  rewrite Hst. split.
  - destruct (http_invoke c url body) as [code| | |e]; simpl.
    + split.
      * intros H. injection H as H. left.
        destruct (Z.eqb_spec code 204) as [->|]; [reflexivity | discriminate].
      * intros [H | [[e He] _]]; [by injection H as -> | discriminate He].
    + split; [discriminate | intros [H | [[e He] _]]; discriminate].
    + split; [discriminate | intros [H | [[e He] _]]; discriminate].
    + split; [intros H; right; eauto | intros [H | [_ H]]; [discriminate | exact H]].
  - intros written Hw. rewrite Hw. split; [reflexivity|].
    by eapply reader_failure_callback_status.
Qed.

Lemma InvokeCallback_success_iff_204_witness :
  status_of
    (snd (InvokeCallback (sample_collaborators true (Detected PNone) (Response 204))
            "blob-1" sample_labels (sample_world IN_PROGRESS)))
    "blob-1"
  = Some (value SUCCESS)
  ∧ status_of
      (snd (InvokeCallback (sample_collaborators true (Detected PNone) read_timeout)
              "blob-1" sample_labels (sample_world SUCCESS)))
      "blob-1"
    = Some (value SUCCESS).
Proof.
  split.
  - apply (proj1 (InvokeCallback_success_iff_204
                    (sample_collaborators true (Detected PNone) (Response 204))
                    (sample_world IN_PROGRESS) "blob-1" sample_labels
                    (sample_item IN_PROGRESS) eq_refl)).
    left. reflexivity.
  - apply (proj1 (InvokeCallback_success_iff_204
                    (sample_collaborators true (Detected PNone) read_timeout)
                    (sample_world SUCCESS) "blob-1" sample_labels
                    (sample_item SUCCESS) eq_refl)).
    right. split; [eexists; reflexivity | reflexivity].
Defined.

(** ** The domain of the label normalizer *)

(** X8. The exact domain of [TransformLabels].  It returns a result
    exactly for the payloads that are a dict whose ['Labels'] is a
    list of dicts, each with a ['Parents'] that is missing or a list
    of dicts (or, degenerately, with an empty dict or an empty str in
    the place of a list); for every other payload it raises
    [AttributeError] or [TypeError]; either way it touches nothing. *)
Theorem TransformLabels_domain (w : world) (blob_id : string) (raw : pyval) :
  ((∃ r : RecognitionStepFunctionResult,
      fst (TransformLabels blob_id raw w) = Ok r)
   ↔ transformable raw = true)
  ∧ (transformable raw = false →
     ∃ cls : builtin_error,
       fst (TransformLabels blob_id raw w) = Raise (Builtin cls))
  ∧ snd (TransformLabels blob_id raw w) = w.
Proof.
  pose proof (_transform_domain raw) as H.
  unfold TransformLabels, bind, lift, ret.
  destruct (transformable raw).
  - destruct H as [out ->]. simpl. split; [|split]; [|done..].
    split; [done | eauto].
  - destruct H as [cls ->]. simpl. split; [|split]; [|eauto|done].
    split; [intros [r Hr]; discriminate Hr | discriminate].
Qed.

Lemma TransformLabels_domain_witness :
  ∃ cls : builtin_error,
    fst (TransformLabels "blob-1"
           (PDict [("Labels", PList [PDict [("Name", PStr "Cat"); ("Parents", PNone)]])])
           empty_world)
    = Raise (Builtin cls).
Proof.
  apply (proj1 (proj2 (TransformLabels_domain empty_world "blob-1"
                         (PDict [("Labels",
                                  PList [PDict [("Name", PStr "Cat");
                                                ("Parents", PNone)]])])))).
  reflexivity.
Defined.

(** ** The recognition workflow, end to end *)

Lemma bind_ok {A B : Type} (m : M A) (k : A → M B) (w w' : world) (a : A) :
  m w = (Ok a, w') → bind m k w = k a w'.
Proof. intros H. unfold bind. by rewrite H. Qed.

Lemma bind_raise {A B : Type} (m : M A) (k : A → M B) (w w' : world) (e : exn) :
  m w = (Raise e, w') → bind m k w = (Raise e, w').
Proof. intros H. unfold bind. by rewrite H. Qed.

Lemma GetLabels_run (c : collaborators) (w : world) (blob_id : string) :
  GetLabels c blob_id w
  = match rekognition_detect_labels c blob_id with
    | Detected raw =>
        (Ok {| rsf_blob_id := blob_id; rsf_labels := raw |},
         log (RekognitionDetectLabels blob_id) w)
    | RaisedInvalidBlobHasBeenUploaded message =>
        (Raise (Recognition RecognitionStepHasBeenFailed message
                  [("blob_id", PStr blob_id)]),
         snd (blob_dynamodb_client.update_status blob_id
                (value INVALID_BLOB_HAS_BEEN_UPLOADED)
                (log (RekognitionDetectLabels blob_id) w)))
    | RaisedTooLargeBlobHasBeenUploaded message =>
        (Raise (Recognition RecognitionStepHasBeenFailed message
                  [("blob_id", PStr blob_id)]),
         snd (blob_dynamodb_client.update_status blob_id
                (value TOO_LARGE_BLOB_HAS_BEEN_UPLOADED)
                (log (RekognitionDetectLabels blob_id) w)))
    end.
Proof.
  unfold GetLabels, bind, try_except, blob_rekognition_client.detect_labels.
  by destruct (rekognition_detect_labels c blob_id).
Qed.

(** X9. The recognition workflow delivers what it stores.  For a
    blob that has an item and whose detection answers a payload of
    well-formed labels, the chain extract, normalize, save, dispatch
    makes its calls in that order: detection, save of the normalized
    labels, read of the item, HTTP call to the item's callback url with
    the normalized labels.  When the HTTP call returns a response or
    raises [ConnectTimeout] or [ConnectionError], the chain writes the
    status of that outcome, returns the normalized labels, and the
    result reader then returns the same normalized labels.  When the
    HTTP call raises another exception, the chain ends with that
    exception: the normalized labels are stored but no status is
    written. *)
Theorem recognition_workflow_delivers
    (c : collaborators) (w : world) (blob_id : string)
    (item d : pydict) (ls : list pyval) :
  table w !! blob_id = Some item →
  rekognition_detect_labels c blob_id = Detected (PDict d) →
  dict_lookup "Labels" d = Some (PList ls) →
  forallb is_raw_label ls = true →
  let normalized := PList (map canonical_label ls) in
  let url := dict_get item "callback_url" PNone in
  let body := as_dict {| brr_blob_id := blob_id; brr_labels := normalized |} in
  let w' := snd (recognition_workflow c blob_id w) in
  let calls := [RekognitionDetectLabels blob_id;
                DbSaveLabels blob_id normalized;
                DbGetBlob blob_id;
                HttpInvoke url body] in
  attribute_of w' blob_id "labels" = Some normalized
  ∧ match callback_status (http_invoke c url body) with
    | Some s =>
        fst (recognition_workflow c blob_id w)
          = Ok {| rsf_blob_id := blob_id; rsf_labels := normalized |}
        ∧ trace w' = trace w ++ calls ++ [DbUpdateStatus blob_id (value s)]
        ∧ fst (GetRecognitionResult blob_id w')
          = Ok {| brr_blob_id := blob_id; brr_labels := normalized |}
    | None =>
        ∃ e : exn,
          http_invoke c url body = RaisedOther e
          ∧ fst (recognition_workflow c blob_id w) = Raise e
          ∧ trace w' = trace w ++ calls
          ∧ status_of w' blob_id = status_of w blob_id
    end.
Proof.
  intros Hitem Hdetect Hlabels Hls normalized url body w' calls.
  set (w1 := log (RekognitionDetectLabels blob_id) w).
  set (w2 := snd (blob_dynamodb_client.save_labels blob_id normalized w1)).
  assert (Hitem2 : table w2 !! blob_id = Some (dict_set "labels" normalized item))
    by (apply save_labels_item; exact Hitem).
  assert (Hurl : dict_get (dict_set "labels" normalized item) "callback_url" PNone = url).
  { unfold url, dict_get. by rewrite dict_lookup_set_ne by discriminate. }
  assert (Hrun : recognition_workflow c blob_id w
                 = InvokeCallback c blob_id normalized w2).
  { unfold recognition_workflow.
    erewrite bind_ok; [|rewrite GetLabels_run, Hdetect; reflexivity]. simpl.
    erewrite bind_ok;
      [|unfold TransformLabels, bind, lift;
        rewrite (_transform_raw_labels d ls Hlabels Hls); reflexivity].
    simpl. reflexivity. }
  subst w'. rewrite Hrun.
  destruct (callback_status (http_invoke c url body)) as [s|] eqn:Hs.
  - rewrite (InvokeCallback_run c w2 blob_id normalized _ s Hitem2);
      [|by rewrite Hurl].
    rewrite Hurl. fold body. cbn [fst snd].
    assert (Hitem3 :
      table (snd (blob_dynamodb_client.update_status blob_id (value s)
                    (log (HttpInvoke url body) (log (DbGetBlob blob_id) w2))))
        !! blob_id
      = Some (dict_set "status" (value s) (dict_set "labels" normalized item)))
      by (apply update_status_item; exact Hitem2).
    split; [|split; [reflexivity|split]].
    + unfold attribute_of. rewrite Hitem3.
      rewrite dict_lookup_set_ne by discriminate. apply dict_lookup_set_eq.
    + simpl. by rewrite <- !app_assoc.
    + eapply eq_trans.
      { eapply GetRecognitionResult_reads_labels.
        - exact Hitem3.
        - by rewrite dict_get_set_eq.
        - by eapply reader_failure_callback_status. }
      unfold dict_get. rewrite dict_lookup_set_ne by discriminate.
      by rewrite dict_lookup_set_eq.
  - destruct (http_invoke c url body) as [code| | |e] eqn:He; try discriminate Hs.
    rewrite (InvokeCallback_run_uncaught c w2 blob_id normalized _ e Hitem2);
      [|by rewrite Hurl].
    rewrite Hurl. fold body. cbn [fst snd]. split.
    + unfold attribute_of.
      change (table (log _ (log _ w2))) with (table w2).
      rewrite Hitem2. apply dict_lookup_set_eq.
    + exists e. split; [reflexivity|]. split; [reflexivity|]. split.
      * simpl. by rewrite <- !app_assoc.
      * change (status_of (snd (blob_dynamodb_client.save_labels blob_id normalized w1))
                  blob_id = status_of w blob_id).
        rewrite save_labels_keeps_status.
        change (status_of w1 blob_id) with (status_of w blob_id).
        unfold status_of. by rewrite Hitem.
Qed.

Lemma recognition_workflow_delivers_witness :
  fst (recognition_workflow
         (sample_collaborators true (Detected sample_raw_labels_data) RaisedConnectTimeout)
         "blob-1" (sample_world IN_PROGRESS))
  = Ok {| rsf_blob_id := "blob-1";
          rsf_labels :=
            PList [PDict [("label", PStr "Cat");
                          ("confidence", PFloat (981 # 10));
                          ("parents", PList [PStr "Animal"])];
                   PDict [("label", PStr "Animal");
                          ("confidence", PFloat (995 # 10));
                          ("parents", PList [])];
                   PDict [("label", PStr "");
                          ("confidence", PFloat (60 # 1));
                          ("parents", PList [])]] |}.
Proof.
  exact (proj1 (proj2 (recognition_workflow_delivers
                         (sample_collaborators true (Detected sample_raw_labels_data)
                            RaisedConnectTimeout)
                         (sample_world IN_PROGRESS) "blob-1" (sample_item IN_PROGRESS)
                         _ _ eq_refl eq_refl eq_refl eq_refl))).
Defined.

(** X10. The recognition workflow halts at the first failure.  When
    detection reports an invalid or a too large blob, the chain ends
    with [RecognitionStepHasBeenFailed] right after the status write;
    when the detected payload is outside the domain of the normalizer,
    it ends with [AttributeError] or [TypeError] right after the
    detection, the table untouched (so the status stays what it was).
    In no such case are labels saved or a callback sent. *)
Theorem recognition_workflow_halts (c : collaborators) (w : world) (blob_id : string) :
  match rekognition_detect_labels c blob_id with
  | Detected raw =>
      transformable raw = false →
      ∃ cls : builtin_error,
        recognition_workflow c blob_id w
        = (Raise (Builtin cls), log (RekognitionDetectLabels blob_id) w)
  | RaisedInvalidBlobHasBeenUploaded message =>
      recognition_workflow c blob_id w
      = (Raise (Recognition RecognitionStepHasBeenFailed message
                  [("blob_id", PStr blob_id)]),
         snd (blob_dynamodb_client.update_status blob_id
                (value INVALID_BLOB_HAS_BEEN_UPLOADED)
                (log (RekognitionDetectLabels blob_id) w)))
  | RaisedTooLargeBlobHasBeenUploaded message =>
      recognition_workflow c blob_id w
      = (Raise (Recognition RecognitionStepHasBeenFailed message
                  [("blob_id", PStr blob_id)]),
         snd (blob_dynamodb_client.update_status blob_id
                (value TOO_LARGE_BLOB_HAS_BEEN_UPLOADED)
                (log (RekognitionDetectLabels blob_id) w)))
  end.
Proof.
  pose proof (GetLabels_run c w blob_id) as Hget.
  unfold recognition_workflow.
  destruct (rekognition_detect_labels c blob_id) as [raw|message|message].
  - intros Hraw. pose proof (_transform_domain raw) as Hdom.
    rewrite Hraw in Hdom. destruct Hdom as [cls Hcls]. exists cls.
    erewrite bind_ok by exact Hget. simpl.
    erewrite bind_raise; [reflexivity|].
    unfold TransformLabels, bind, lift. by rewrite Hcls.
  - by erewrite bind_raise by exact Hget.
  - by erewrite bind_raise by exact Hget.
Qed.

Lemma recognition_workflow_halts_witness :
  ∃ cls : builtin_error,
    recognition_workflow
      (sample_collaborators true (Detected (PDict [])) (Response 204))
      "blob-1" (sample_world IN_PROGRESS)
    = (Raise (Builtin cls),
       log (RekognitionDetectLabels "blob-1") (sample_world IN_PROGRESS)).
Proof.
  apply (recognition_workflow_halts
           (sample_collaborators true (Detected (PDict [])) (Response 204))
           (sample_world IN_PROGRESS) "blob-1").
  reflexivity.
Defined.

(** ** Invariants of the trace of collaborator calls *)

(** What one invocation adds to the trace is one of the sequences of
    [usecase_events]. *)
Lemma invoke_usecase_events (c : collaborators) (i : invocation) (w : world) :
  ∃ chunk : list event,
    trace (invoke_usecase c i w) = trace w ++ chunk ∧ usecase_events chunk.
Proof.
  destruct i as [b url|b|b|b|b raw|b labels|b labels|b|b]; simpl.
  - destruct (UrlValidator.is_valid_url c None url) eqn:Hvalid.
    + rewrite (InitializeUploadListening_world c w b url Hvalid). simpl.
      eexists. split; [reflexivity | constructor].
    + unfold InitializeUploadListening, bind, _validate_callback_url.
      rewrite Hvalid. simpl. exists []. split; [by rewrite app_nil_r | constructor].
  - unfold CheckUploading, bind, blob_s3_client.is_uploaded. simpl.
    destruct (s3_is_uploaded c b); simpl; rewrite <- ?app_assoc;
      eexists; (split; [reflexivity | constructor]).
  - unfold StartRecognition, bind. simpl. rewrite <- app_assoc.
    eexists. split; [reflexivity | constructor].
  - rewrite GetLabels_world.
    destruct (rekognition_detect_labels c b); simpl; rewrite <- ?app_assoc;
      eexists; (split; [reflexivity | constructor]).
  - unfold TransformLabels, bind, lift.
    destruct (_transform raw); simpl;
      exists []; (split; [by rewrite app_nil_r | constructor]).
  - unfold SaveLabels, bind. simpl. eexists. split; [reflexivity | constructor].
  - destruct (table w !! b) as [item|] eqn:Hitem.
    + rewrite (InvokeCallback_world c w b labels item Hitem).
      destruct (callback_status _) as [s|] eqn:Hs; simpl; rewrite <- !app_assoc;
        eexists; (split; [reflexivity|]);
        [by eapply events_dispatched | constructor].
    + rewrite (InvokeCallback_unknown c w b labels Hitem). simpl.
      eexists. split; [reflexivity | constructor].
  - unfold HandleUnexpectedError. simpl. eexists. split; [reflexivity | constructor].
  - rewrite GetRecognitionResult_world. simpl.
    eexists. split; [reflexivity | constructor].
Qed.

Lemma written_by_update_callback_status (o : http_outcome) (s : RecognitionStatus) :
  callback_status o = Some s → written_by_update s = true.
Proof.
  destruct o as [code| | |e]; simpl; intros H; try discriminate H;
    injection H as <-; [destruct (code =? 204)| |]; reflexivity.
Qed.

(** X11. No component writes an arbitrary status.  In the trace of any
    sequence of invocations, [update_status] is only ever called with
    the value of a member of [RecognitionStatus] other than
    WAITING_FOR_UPLOAD and NOT_FOUND, and [create] only with
    WAITING_FOR_UPLOAD. *)
Theorem orchestrate_status_writes
    (steps : list (collaborators * invocation)) (w : world) :
  Forall status_write_ok (trace w) →
  Forall status_write_ok (trace (orchestrate steps w)).
Proof.
  revert w. induction steps as [|[c i] steps IH]; intros w Hw; simpl; [exact Hw|].
  apply IH.
  destruct (invoke_usecase_events c i w) as (chunk & -> & Hshape).
  apply Forall_app. split; [exact Hw|].
  inversion Hshape; subst; repeat constructor; simpl;
    try (eexists; split; [reflexivity | reflexivity]).
  eexists. split; [reflexivity | by eapply written_by_update_callback_status].
Qed.

Lemma orchestrate_status_writes_witness :
  Forall status_write_ok (trace (orchestrate scenario_B empty_world)).
Proof.
  apply (orchestrate_status_writes scenario_B empty_world). constructor.
Defined.

Ltac chunk_lookup H :=
  repeat match type of H with
         | (_ :: _) !! ?k = Some _ =>
             destruct k; simpl in H; [try discriminate H|]
         | [] !! _ = Some _ => by rewrite lookup_nil in H
         end.

(** X12. An upload target is only issued for a registered blob.  In
    the trace of any sequence of invocations, every request of a
    presigned url comes right after the creation of the item of the
    same blob, with status WAITING_FOR_UPLOAD, and the launch of its
    upload watch, in that order. *)
Theorem orchestrate_target_follows_registration
    (steps : list (collaborators * invocation)) (w : world) :
  target_follows_registration (trace w) →
  target_follows_registration (trace (orchestrate steps w)).
Proof.
  revert w. induction steps as [|[c i] steps IH]; intros w Hw; simpl; [exact Hw|].
  apply IH.
  destruct (invoke_usecase_events c i w) as (chunk & -> & Hshape).
  intros n b Hn.
  destruct (decide (n < length (trace w))%nat) as [Hlt|Hge].
  - rewrite lookup_app_l in Hn by exact Hlt.
    destruct (Hw n b Hn) as (m & url & -> & Hm & HSm).
    exists m, url. split; [done|].
    rewrite !lookup_app_l by lia. by split.
  - rewrite lookup_app_r in Hn by lia.
    remember (n - length (trace w))%nat as k eqn:Hk.
    inversion Hshape; subst chunk; chunk_lookup Hn.
    injection Hn as <-.
    exists (length (trace w)), url. split; [lia|].
    rewrite !lookup_app_r by lia.
    rewrite Nat.sub_diag.
    replace (S (length (trace w)) - length (trace w))%nat with 1%nat by lia.
    by split.
Qed.

Lemma orchestrate_target_follows_registration_witness :
  target_follows_registration (trace (orchestrate scenario_B empty_world)).
Proof.
  apply (orchestrate_target_follows_registration scenario_B empty_world).
  intros n b Hn. simpl in Hn. by rewrite lookup_nil in Hn.
Defined.

(** X13. The callback is only ever sent by the dispatcher, and a
    callback status only ever follows a callback.  In the trace of any
    sequence of invocations, every HTTP call comes right after a read
    of the item of a blob, and every write of SUCCESS or of one of the
    three FAILED_DUE_TO_CALLBACK statuses for a blob comes right after
    an HTTP call that itself came right after a read of the item of
    that blob.  (An HTTP call that raised an exception the dispatcher
    does not catch is followed by no write.) *)
Theorem orchestrate_callback_between_read_and_write
    (steps : list (collaborators * invocation)) (w : world) :
  callback_between_read_and_write (trace w) →
  callback_between_read_and_write (trace (orchestrate steps w)).
Proof.
  revert w. induction steps as [|[c i] steps IH]; intros w Hw; simpl; [exact Hw|].
  apply IH.
  destruct (invoke_usecase_events c i w) as (chunk & -> & Hshape).
  destruct Hw as [Hcall Hwrite]. split.
  - intros n url body Hn.
    destruct (decide (n < length (trace w))%nat) as [Hlt|Hge].
    + rewrite lookup_app_l in Hn by exact Hlt.
      destruct (Hcall n url body Hn) as (m & b & -> & Hm).
      exists m, b. split; [done|]. by rewrite lookup_app_l by lia.
    + rewrite lookup_app_r in Hn by lia.
      remember (n - length (trace w))%nat as k eqn:Hk.
      inversion Hshape; subst chunk; chunk_lookup Hn;
        exists (length (trace w)), b; (split; [lia|]);
        rewrite lookup_app_r by lia; by rewrite Nat.sub_diag.
  - intros n b s Hn Hcb.
    destruct (decide (n < length (trace w))%nat) as [Hlt|Hge].
    + rewrite lookup_app_l in Hn by exact Hlt.
      destruct (Hwrite n b s Hn Hcb) as (m & url & body & -> & Hm & HSm).
      exists m, url, body. split; [done|].
      rewrite !lookup_app_l by lia. by split.
    + rewrite lookup_app_r in Hn by lia.
      remember (n - length (trace w))%nat as k eqn:Hk.
      inversion Hshape; subst chunk; chunk_lookup Hn;
        injection Hn as <- Hname;
        first [ apply status_name_inj in Hname; subst
              | destruct s; try discriminate Hname ];
        try (simpl in Hcb; discriminate Hcb).
      exists (length (trace w)), url, body. split; [lia|].
      rewrite !lookup_app_r by lia. rewrite Nat.sub_diag.
      replace (S (length (trace w)) - length (trace w))%nat with 1%nat by lia.
      by split.
Qed.

Lemma orchestrate_callback_between_read_and_write_witness :
  callback_between_read_and_write (trace (orchestrate scenario_B empty_world)).
Proof.
  apply (orchestrate_callback_between_read_and_write scenario_B empty_world).
  split.
  - intros n url body Hn. simpl in Hn. by rewrite lookup_nil in Hn.
  - intros n b s Hn. simpl in Hn. by rewrite lookup_nil in Hn.
Defined.

(** ** The handlers *)

(** X14. The blob id of a storage notification.  When the event is a
    dict whose ['Records'] is a list that starts with a dict holding
    the dict ['s3'], itself holding the dict ['object'],
    [get_blob_id_from_event] returns the ['key'] of that object, or
    [None] without any error when the object has no ['key']; the
    records after the first are never read.  For an event of any other
    shape it raises. *)
Theorem get_blob_id_from_event_shape (event : pyval) :
  match lambdas.s3_object_of event with
  | Some object =>
      lambdas.get_blob_id_from_event event
      = lambdas.Returned (dict_get object "key" PNone)
  | None =>
      ∃ e : lambdas.raised, lambdas.get_blob_id_from_event event = lambdas.Raised e
  end.
Proof.
  unfold lambdas.s3_object_of, lambdas.get_blob_id_from_event.
  destruct event as [| | | | | |e]; simpl; eauto.
  unfold dict_get.
  destruct (dict_lookup "Records" e) as [[| | | |s|records|d]|]; simpl; eauto.
  - destruct s; simpl; eauto.
  - destruct records as [|[| | | | | |record] rest]; simpl; eauto.
    unfold dict_get.
    destruct (dict_lookup "s3" record) as [[| | | | | |s3]|]; simpl; eauto.
    unfold dict_get.
    destruct (dict_lookup "object" s3) as [[| | | | | |object]|]; simpl; eauto.
Qed.

(** X15. Malformed storage notifications.  [get_blob_id_from_event]
    raises [TypeError] for an event without ['Records'] (the [None] it
    got is subscripted), [IndexError] for an empty list of records,
    [KeyError] when ['Records'] is a dict, and [AttributeError] when
    the first record has no ['s3'], or its ['s3'] no ['object']. *)
Theorem get_blob_id_from_event_errors (e : pydict) :
  (dict_lookup "Records" e = None →
   lambdas.get_blob_id_from_event (PDict e)
   = lambdas.Raised (lambdas.Exception (Builtin TypeError)))
  ∧ (dict_lookup "Records" e = Some (PList []) →
     lambdas.get_blob_id_from_event (PDict e) = lambdas.Raised lambdas.IndexError)
  ∧ (∀ d : pydict,
       dict_lookup "Records" e = Some (PDict d) →
       lambdas.get_blob_id_from_event (PDict e) = lambdas.Raised lambdas.KeyError)
  ∧ (∀ (record : pydict) (rest : list pyval),
       dict_lookup "Records" e = Some (PList (PDict record :: rest)) →
       dict_lookup "s3" record = None →
       lambdas.get_blob_id_from_event (PDict e)
       = lambdas.Raised (lambdas.Exception (Builtin AttributeError)))
  ∧ (∀ (record s3 : pydict) (rest : list pyval),
       dict_lookup "Records" e = Some (PList (PDict record :: rest)) →
       dict_lookup "s3" record = Some (PDict s3) →
       dict_lookup "object" s3 = None →
       lambdas.get_blob_id_from_event (PDict e)
       = lambdas.Raised (lambdas.Exception (Builtin AttributeError))).
Proof.
  unfold lambdas.get_blob_id_from_event. simpl. unfold dict_get.
  repeat split.
  - by intros ->.
  - by intros ->.
  - by intros d ->.
  - intros record rest -> Hs3. simpl. unfold dict_get. by rewrite Hs3.
  - intros record s3 rest -> Hs3 Hobject. simpl. unfold dict_get.
    rewrite Hs3. simpl. unfold dict_get. by rewrite Hobject.
Qed.

Lemma get_blob_id_from_event_errors_witness :
  lambdas.get_blob_id_from_event (PDict [("Records", PList [])])
  = lambdas.Raised lambdas.IndexError
  ∧ lambdas.get_blob_id_from_event (PDict [("detail", PStr "ping")])
    = lambdas.Raised (lambdas.Exception (Builtin TypeError)).
Proof.
  split.
  - apply (proj1 (proj2 (get_blob_id_from_event_errors [("Records", PList [])]))).
    reflexivity.
  - apply (proj1 (get_blob_id_from_event_errors [("detail", PStr "ping")])).
    reflexivity.
Defined.

Example get_blob_id_from_sample_s3_event :
  lambdas.get_blob_id_from_event sample_s3_event = lambdas.Returned (PStr "blob-1").
Proof. reflexivity. Qed.

Lemma get_callback_url_run (rt : lambdas.runtime) (e : pydict) (parsed : pyval) :
  lambdas.json_loads rt (dict_get e "body" PNone) = lambdas.Loaded parsed →
  lambdas.get_callback_url_from_event rt (PDict e)
  = lambdas.hbind (lambdas.of_res (py_get parsed "callback_url" (PStr "")))
      (lambdas.py_strip rt).
Proof.
  intros Hloads. unfold lambdas.get_callback_url_from_event, lambdas.loads. simpl.
  by rewrite Hloads.
Qed.

(** X16. The callback url of a request.  Once the body of the event
    has been parsed, [get_callback_url_from_event] returns the
    stripped ['callback_url'] of a dict body, the stripped empty
    string when the dict has no such key, and raises
    [AttributeError] when the body is not a dict or when
    ['callback_url'] is bound to anything but a str (a JSON null, a
    number, a list). *)
Theorem get_callback_url_from_event_cases
    (rt : lambdas.runtime) (e : pydict) (parsed : pyval) :
  lambdas.json_loads rt (dict_get e "body" PNone) = lambdas.Loaded parsed →
  (∀ (d : pydict) (s : string),
     parsed = PDict d → dict_lookup "callback_url" d = Some (PStr s) →
     lambdas.get_callback_url_from_event rt (PDict e)
     = lambdas.Returned (lambdas.str_strip rt s))
  ∧ (∀ d : pydict,
       parsed = PDict d → dict_lookup "callback_url" d = None →
       lambdas.get_callback_url_from_event rt (PDict e)
       = lambdas.Returned (lambdas.str_strip rt ""))
  ∧ (∀ (d : pydict) (v : pyval),
       parsed = PDict d → dict_lookup "callback_url" d = Some v →
       (∀ s : string, v ≠ PStr s) →
       lambdas.get_callback_url_from_event rt (PDict e)
       = lambdas.Raised (lambdas.Exception (Builtin AttributeError)))
  ∧ (is_dict parsed = false →
     lambdas.get_callback_url_from_event rt (PDict e)
     = lambdas.Raised (lambdas.Exception (Builtin AttributeError))).
Proof.
  intros Hloads. rewrite (get_callback_url_run rt e parsed Hloads).
  repeat split.
  - intros d s -> Hurl. simpl. unfold dict_get. by rewrite Hurl.
  - intros d -> Hurl. simpl. unfold dict_get. by rewrite Hurl.
  - intros d v -> Hurl Hv. simpl. unfold dict_get. rewrite Hurl. simpl.
    destruct v; try reflexivity. by destruct (Hv s).
  - intros Hparsed. destruct parsed; try reflexivity. discriminate Hparsed.
Qed.

Lemma get_callback_url_from_event_cases_witness :
  lambdas.get_callback_url_from_event
    (sample_runtime (PDict [("callback_url", PNone)]) "{}") sample_http_event
  = lambdas.Raised (lambdas.Exception (Builtin AttributeError)).
Proof.
  apply (proj1 (proj2 (proj2 (get_callback_url_from_event_cases
                                (sample_runtime (PDict [("callback_url", PNone)]) "{}")
                                [("body", PStr "{...}")]
                                (PDict [("callback_url", PNone)]) eq_refl)))
           [("callback_url", PNone)] PNone eq_refl eq_refl).
  intros s. discriminate.
Defined.

(** X17. A rejected callback url is answered, not raised.  When the
    url taken from the event is rejected by the validator, the handler
    returns a [Response] with status code 400 whose body holds the
    message of [CallbackUrlIsNotValid] and its payload
    [{'callback_url': url}]; no exception reaches the caller and the
    world is as it was: no item, no workflow, no upload target.  The
    decorated handler wraps it as [statusCode] 400 with the dumped
    body. *)
Theorem initialize_upload_listening_handler_rejects
    (rt : lambdas.runtime) (c : collaborators) (event : pyval) (w : world)
    (callback_url : string) :
  lambdas.get_callback_url_from_event rt event = lambdas.Returned callback_url →
  UrlValidator.is_valid_url c None callback_url = false →
  let answer :=
    {| lambdas.body :=
         [("description", lambdas.BValue (PStr "Invalid callback url supplied."));
          ("payload", lambdas.BValue (PDict [("callback_url", PStr callback_url)]))];
       lambdas.status_code := 400 |} in
  lambdas.initialize_upload_listening_handler_function rt c event w
    = (lambdas.Returned answer, w)
  ∧ ∀ dumped : string,
      lambdas.json_dumps rt (lambdas.body answer) = lambdas.Dumped dumped →
      lambdas.initialize_upload_listening_handler rt c event w
      = (lambdas.Returned
           (PDict [("isBase64Encoded", PBool false);
                   ("statusCode", PInt 400);
                   ("headers", PDict [("Content-Type", PStr "application/json")]);
                   ("body", PStr dumped)]),
         w).
Proof.
  intros Hurl Hrej answer.
  assert (Hfun : lambdas.initialize_upload_listening_handler_function rt c event w
                 = (lambdas.Returned answer, w)).
  { unfold lambdas.initialize_upload_listening_handler_function.
    rewrite Hurl.
    unfold InitializeUploadListening, bind, _validate_callback_url.
    rewrite Hrej. reflexivity. }
  split; [exact Hfun|].
  intros dumped Hdumped.
  unfold lambdas.initialize_upload_listening_handler,
    lambdas.with_http_api_response_format.
  rewrite Hfun, Hdumped. reflexivity.
Qed.

Lemma initialize_upload_listening_handler_rejects_witness :
  lambdas.initialize_upload_listening_handler
    (sample_runtime (PDict [("callback_url", PStr "not a url")]) "{}")
    (sample_collaborators true (Detected PNone) (Response 204))
    sample_http_event empty_world
  = (lambdas.Returned
       (PDict [("isBase64Encoded", PBool false);
               ("statusCode", PInt 400);
               ("headers", PDict [("Content-Type", PStr "application/json")]);
               ("body", PStr "{}")]),
     empty_world).
Proof.
  apply (proj2 (initialize_upload_listening_handler_rejects
                  (sample_runtime (PDict [("callback_url", PStr "not a url")]) "{}")
                  (sample_collaborators true (Detected PNone) (Response 204))
                  sample_http_event empty_world "not a url" eq_refl eq_refl)).
  reflexivity.
Defined.

(** X18. An accepted callback url registers the blob under a fresh id.
    When the url taken from the event passes the validator, the
    handler returns a [Response] with status code 201 whose body holds
    the id drawn by [uuid4], the url, and, under ['upload_url'], the
    result object of the registrar (which carries the presigned url);
    the item of that id is created with the url and the status
    WAITING_FOR_UPLOAD, and the upload watch is launched before the
    upload target is requested. *)
Theorem initialize_upload_listening_handler_registers
    (rt : lambdas.runtime) (c : collaborators) (event : pyval) (w : world)
    (callback_url : string) :
  lambdas.get_callback_url_from_event rt event = lambdas.Returned callback_url →
  UrlValidator.is_valid_url c None callback_url = true →
  let blob_id := lambdas.uuid4_str rt in
  let w' := snd (lambdas.initialize_upload_listening_handler_function rt c event w) in
  fst (lambdas.initialize_upload_listening_handler_function rt c event w)
    = lambdas.Returned
        {| lambdas.body :=
             [("blob_id", lambdas.BValue (PStr blob_id));
              ("callback_url", lambdas.BValue (PStr callback_url));
              ("upload_url",
               lambdas.BResult
                 {| uir_blob_id := blob_id;
                    uir_upload_url := s3_generate_presigned_url c blob_id;
                    uir_callback_url := callback_url |})];
           lambdas.status_code := 201 |}
  ∧ status_of w' blob_id = Some (value WAITING_FOR_UPLOAD)
  ∧ attribute_of w' blob_id "callback_url" = Some (PStr callback_url)
  ∧ attribute_of w' blob_id "labels" = None
  ∧ trace w' = trace w ++ [DbCreate blob_id callback_url (value WAITING_FOR_UPLOAD);
                           UploadingStepFunctionLaunch blob_id;
                           S3GeneratePresignedUrl blob_id].
Proof.
  intros Hurl Hvalid blob_id w'. subst w'.
  unfold lambdas.initialize_upload_listening_handler_function.
  rewrite Hurl. fold blob_id.
  rewrite (InitializeUploadListening_world c w blob_id callback_url Hvalid).
  cbn [fst snd]. split; [reflexivity|].
  unfold status_of, attribute_of. simpl. rewrite lookup_insert_eq. done.
Qed.

Lemma initialize_upload_listening_handler_registers_witness :
  status_of
    (snd (lambdas.initialize_upload_listening_handler_function
            (sample_runtime (PDict [("callback_url", PStr "https://example.com/cb")]) "{}")
            (sample_collaborators true (Detected PNone) (Response 204))
            sample_http_event empty_world))
    "6f1c2a9e-0000-4000-8000-000000000001"
  = Some (value WAITING_FOR_UPLOAD).
Proof.
  apply (proj1 (proj2 (initialize_upload_listening_handler_registers
                         (sample_runtime
                            (PDict [("callback_url", PStr "https://example.com/cb")]) "{}")
                         (sample_collaborators true (Detected PNone) (Response 204))
                         sample_http_event empty_world "https://example.com/cb"
                         eq_refl eq_refl))).
Defined.

(** ** Isolation between blobs *)

Lemma invoke_usecase_other_item
    (c : collaborators) (i : invocation) (w : world) (blob_id : string) :
  blob_of i ≠ blob_id →
  table (invoke_usecase c i w) !! blob_id = table w !! blob_id.
Proof.
  intros Hne.
  destruct i as [b url|b|b|b|b raw|b labels|b labels|b|b]; simpl in Hne |- *.
  - unfold InitializeUploadListening, bind, _validate_callback_url.
    destruct (negb _); simpl; [reflexivity | by rewrite lookup_insert_ne].
  - unfold CheckUploading, bind, blob_s3_client.is_uploaded. simpl.
    destruct (s3_is_uploaded c b); simpl; [reflexivity | by rewrite lookup_insert_ne].
  - unfold StartRecognition, bind. simpl. by rewrite lookup_insert_ne.
  - rewrite GetLabels_world.
    destruct (rekognition_detect_labels c b); simpl;
      [reflexivity | by rewrite lookup_insert_ne..].
  - unfold TransformLabels, bind, lift. by destruct (_transform raw).
  - unfold SaveLabels, bind. simpl. by rewrite lookup_insert_ne.
  - destruct (table w !! b) as [item|] eqn:Hitem.
    + rewrite (InvokeCallback_world c w b labels item Hitem).
      destruct (callback_status _); simpl; [by rewrite lookup_insert_ne | reflexivity].
    + by rewrite (InvokeCallback_unknown c w b labels Hitem).
  - unfold HandleUnexpectedError. simpl. by rewrite lookup_insert_ne.
  - by rewrite GetRecognitionResult_world.
Qed.

(** X19. Blobs are isolated.  A sequence of invocations for other blob
    ids leaves the item of a blob exactly as it was, and
    [GetRecognitionResult] for that blob answers afterwards what it
    would have answered before. *)
Theorem orchestrate_isolation
    (steps : list (collaborators * invocation)) (w : world) (blob_id : string) :
  Forall (λ ci, blob_of (snd ci) ≠ blob_id) steps →
  table (orchestrate steps w) !! blob_id = table w !! blob_id
  ∧ fst (GetRecognitionResult blob_id (orchestrate steps w))
    = fst (GetRecognitionResult blob_id w).
Proof.
  intros Hsteps.
  assert (Hitem : table (orchestrate steps w) !! blob_id = table w !! blob_id).
  { revert w. induction Hsteps as [|[c i] steps Hi _ IH]; intros w; simpl; [done|].
    rewrite IH. by apply invoke_usecase_other_item. }
  split; [exact Hitem|].
  by apply GetRecognitionResult_depends_on_item.
Qed.

Lemma orchestrate_isolation_witness :
  fst (GetRecognitionResult "blob-2" (orchestrate scenario_B (sample_world SUCCESS)))
  = fst (GetRecognitionResult "blob-2" (sample_world SUCCESS)).
Proof.
  apply (orchestrate_isolation scenario_B (sample_world SUCCESS) "blob-2").
  repeat constructor; simpl; discriminate.
Defined.

(** ** The outcomes the dispatcher classifies *)

(** X20. The four outcomes [Invoker.invoke] handles.  For a blob that
    has an item, when the HTTP call returns a response or raises
    [ConnectTimeout] or [ConnectionError], [InvokeCallback] returns its
    result and records exactly one of four statuses after its read and
    its call: SUCCESS for status code 204,
    FAILED_DUE_TO_CALLBACK_FAILURE for any other code,
    FAILED_DUE_TO_CALLBACK_TIME_OUT for a connect timeout,
    FAILED_DUE_TO_CALLBACK_CONNECTION for a connection error; and
    [Invoker.invoke], whenever it returns, returns one of its four
    codes. *)
Theorem InvokeCallback_classifies
    (c : collaborators) (w : world) (blob_id : string) (labels : pyval) (item : pydict) :
  table w !! blob_id = Some item →
  let url := dict_get item "callback_url" PNone in
  let body := as_dict {| brr_blob_id := blob_id; brr_labels := labels |} in
  let w' := snd (InvokeCallback c blob_id labels w) in
  (∀ s : RecognitionStatus,
     callback_status (http_invoke c url body) = Some s →
     fst (InvokeCallback c blob_id labels w)
       = Ok {| rsf_blob_id := blob_id; rsf_labels := labels |}
     ∧ s ∈ [SUCCESS; FAILED_DUE_TO_CALLBACK_FAILURE;
            FAILED_DUE_TO_CALLBACK_TIME_OUT; FAILED_DUE_TO_CALLBACK_CONNECTION]
     ∧ status_of w' blob_id = Some (value s)
     ∧ trace w' = trace w ++ [DbGetBlob blob_id; HttpInvoke url body;
                              DbUpdateStatus blob_id (value s)])
  ∧ (∀ (code : Z) (w0 : world),
       fst (Invoker.invoke c url body w0) = Ok code →
       code ∈ [Invoker.SUCCESS; Invoker.CALLBACK_FAILURE;
               Invoker.CONNECTION_TIMEOUT; Invoker.CONNECTION_ERROR])
  ∧ (http_invoke c url body = Response 204 →
     status_of w' blob_id = Some (value SUCCESS))
  ∧ (∀ status_code : Z,
       status_code ≠ 204 →
       http_invoke c url body = Response status_code →
       status_of w' blob_id = Some (value FAILED_DUE_TO_CALLBACK_FAILURE))
  ∧ (http_invoke c url body = RaisedConnectTimeout →
     status_of w' blob_id = Some (value FAILED_DUE_TO_CALLBACK_TIME_OUT))
  ∧ (http_invoke c url body = RaisedConnectionError →
     status_of w' blob_id = Some (value FAILED_DUE_TO_CALLBACK_CONNECTION)).
Proof.
  intros Hitem url body w'.
  assert (Hhandled : ∀ s : RecognitionStatus,
            callback_status (http_invoke c url body) = Some s →
            InvokeCallback c blob_id labels w
            = (Ok {| rsf_blob_id := blob_id; rsf_labels := labels |},
               snd (blob_dynamodb_client.update_status blob_id (value s)
                      (log (HttpInvoke url body) (log (DbGetBlob blob_id) w)))))
    by (intros s Hs; by apply (InvokeCallback_run c w blob_id labels item s Hitem)).
  assert (Hst : ∀ s : RecognitionStatus,
            callback_status (http_invoke c url body) = Some s →
            status_of w' blob_id = Some (value s)).
  { intros s Hs. subst w'. rewrite (Hhandled s Hs). cbn [snd].
    apply update_status_writes. }
  split; [|split; [|repeat split]].
  - intros s Hs. split; [by rewrite (Hhandled s Hs)|]. split; [|split].
    + destruct (http_invoke c url body) as [code| | |e]; simpl in Hs;
        try discriminate Hs; injection Hs as <-;
        [destruct (code =? 204)| |]; set_solver.
    + by apply Hst.
    + subst w'. rewrite (Hhandled s Hs). simpl. by rewrite <- !app_assoc.
  - intros code w0. unfold Invoker.invoke. simpl.
    destruct (http_invoke c url body) as [status_code| | |e];
      [destruct (status_code =? 204)| | |]; intros H; try discriminate H;
      injection H as <-; set_solver.
  - intros H. apply Hst. by rewrite H.
  - intros code Hne H. apply Hst. rewrite H. simpl.
    by destruct (Z.eqb_spec code 204).
  - intros H. apply Hst. by rewrite H.
  - intros H. apply Hst. by rewrite H.
Qed.

Lemma InvokeCallback_classifies_witness :
  status_of
    (snd (InvokeCallback (sample_collaborators true (Detected PNone) RaisedConnectTimeout)
            "blob-1" sample_labels (sample_world IN_PROGRESS)))
    "blob-1"
  = Some (value FAILED_DUE_TO_CALLBACK_TIME_OUT)
  ∧ status_of
      (snd (InvokeCallback (sample_collaborators true (Detected PNone) (Response 404))
              "blob-1" sample_labels (sample_world IN_PROGRESS)))
      "blob-1"
    = Some (value FAILED_DUE_TO_CALLBACK_FAILURE).
Proof.
  split.
  - destruct (InvokeCallback_classifies
                (sample_collaborators true (Detected PNone) RaisedConnectTimeout)
                (sample_world IN_PROGRESS) "blob-1" sample_labels
                (sample_item IN_PROGRESS) eq_refl)
      as (_ & _ & _ & _ & Htimeout & _).
    apply Htimeout. reflexivity.
  - destruct (InvokeCallback_classifies
                (sample_collaborators true (Detected PNone) (Response 404))
                (sample_world IN_PROGRESS) "blob-1" sample_labels
                (sample_item IN_PROGRESS) eq_refl)
      as (_ & _ & _ & Hcode & _).
    apply (Hcode 404); [discriminate | reflexivity].
Defined.
